(** * Offline Video Editor (src/app/app.tsx): command builders, output
    bookkeeping and the run controller

    A shallow embedding of the application screen.  JavaScript strings are
    [string]s (one character per code unit), the React state of [App] is a
    record, and every [async] function is a small tree of effects whose
    suspension points are the [await]s of the source. *)

From Stdlib Require Import String Ascii List Lia Bool Arith.
From stdpp Require Import base gmap strings list.

Local Open Scope string_scope.
Local Open Scope list_scope.

(** ** JavaScript string operations used by the source *)

Module JsString.

(** The double-quote character, written by its decimal code. *)
Definition dquote : string := String "034"%char "".

Definition backslash : ascii := "092"%char.

(** [s.length] *)
Definition len (s : string) : nat := String.length s.

Fixpoint str_take (n : nat) (s : string) : string :=
  match n, s with
  | S n', String c r => String c (str_take n' r)
  | _, _ => ""
  end.

Fixpoint str_drop (n : nat) (s : string) : string :=
  match n, s with
  | S n', String _ r => str_drop n' r
  | _, _ => s
  end.

(** [s.slice(a, b)] for non-negative indices: the characters at positions
    [a] (inclusive) to [b] (exclusive), clipped to the string. *)
Definition slice (a b : nat) (s : string) : string := str_take (b - a) (str_drop a s).

(** [s.startsWith(p)] *)
Definition startsWith (s p : string) : bool := String.prefix p s.

(** [s.includes(sub)] *)
Fixpoint includes (s sub : string) : bool :=
  match s with
  | "" => startsWith "" sub
  | String _ r => startsWith s sub || includes r sub
  end.

(** [s.endsWith(suf)] *)
Definition endsWith (s suf : string) : bool :=
  Nat.leb (len suf) (len s) && String.eqb (str_drop (len s - len suf) s) suf.

(** [s.replace(pat, rep)] with a string pattern: only the first occurrence
    of [pat] is replaced ([rep] is taken literally; the source's replacement
    text has no dollar sign). *)
Fixpoint replace (pat rep s : string) : string :=
  if startsWith s pat then rep +:+ str_drop (len pat) s
  else match s with
       | "" => ""
       | String c r => String c (replace pat rep r)
       end.

(** [s.replace(/[cs]/g, rep)] for a character class: every character of the
    class is replaced. *)
Fixpoint replace_class (cls : ascii -> bool) (rep : string) (s : string) : string :=
  match s with
  | "" => ""
  | String c r =>
      (if cls c then rep else String c "") +:+ replace_class cls rep r
  end.

(** Number of occurrences of a character. *)
Fixpoint count_char (c : ascii) (s : string) : nat :=
  match s with
  | "" => 0
  | String d r => (if Ascii.eqb d c then 1 else 0) + count_char c r
  end.

(** Double quotes that are not escaped by a backslash (a backslash escapes
    the character after it). *)
Fixpoint unescaped_dquotes_from (escaped : bool) (s : string) : nat :=
  match s with
  | "" => 0
  | String d r =>
      if escaped then unescaped_dquotes_from false r
      else if Ascii.eqb d backslash then unescaped_dquotes_from true r
      else (if Ascii.eqb d "034"%char then 1 else 0) + unescaped_dquotes_from false r
  end.

Definition unescaped_dquotes : string -> nat := unescaped_dquotes_from false.

(** [s.split(" ")] *)
Fixpoint split_spaces (s : string) : list string :=
  match s with
  | "" => [""]
  | String c r =>
      if Ascii.eqb c " "%char then "" :: split_spaces r
      else match split_spaces r with
           | w :: ws => String c w :: ws
           | [] => [String c ""]
           end
  end.

(** The tokens [ts], each followed by a space, in front of [rest]. *)
Fixpoint join_spaces (ts : list string) (rest : string) : string :=
  match ts with
  | [] => rest
  | t :: ts' => t +:+ " " +:+ join_spaces ts' rest
  end.

End JsString.

Import JsString.

(** ** Command builders (app.tsx lines 37-57)

    Each template literal is the concatenation of its fixed pieces and its
    two placeholders. *)

Definition buildSplitCommand (inputUri outPattern : string) : string :=
  "-i " +:+ dquote +:+ inputUri +:+ dquote +:+
  " -map 0 -c:v libx264 -preset veryfast -crf 23 -c:a aac -segment_time 60 -f segment -reset_timestamps 1 " +:+
  dquote +:+ outPattern +:+ dquote.

Definition buildCropSquareCommand (inputUri outputPath : string) : string :=
  let vf := "crop='min(iw,ih)':'min(iw,ih)',scale=1080:1080" in
  "-i " +:+ dquote +:+ inputUri +:+ dquote +:+ " -vf " +:+ vf +:+
  " -c:v libx264 -preset veryfast -crf 20 -c:a copy " +:+
  dquote +:+ outputPath +:+ dquote.

Definition buildBlurCommand (inputUri outputPath : string) : string :=
  let vf := "boxblur=10:1" in
  "-i " +:+ dquote +:+ inputUri +:+ dquote +:+ " -vf " +:+ vf +:+
  " -c:v libx264 -preset veryfast -crf 22 -c:a copy " +:+
  dquote +:+ outputPath +:+ dquote.

Definition buildEnhanceCommand (inputUri outputPath : string) : string :=
  let vf := "unsharp=5:5:1.0:5:5:0.0,eq=contrast=1.08:brightness=0.02:saturation=1.15" in
  "-i " +:+ dquote +:+ inputUri +:+ dquote +:+ " -vf " +:+ vf +:+
  " -c:v libx264 -preset veryfast -crf 20 -c:a copy " +:+
  dquote +:+ outputPath +:+ dquote.

(** The four presets, one per action button. *)
Inductive Preset := Split | CropSquare | Blur | Enhance.

Definition buildCommand (p : Preset) : string -> string -> string :=
  match p with
  | Split => buildSplitCommand
  | CropSquare => buildCropSquareCommand
  | Blur => buildBlurCommand
  | Enhance => buildEnhanceCommand
  end.

(** The value that follows the first token [flag] in a token list. *)
Fixpoint flag_value (flag : string) (tokens : list string) : option string :=
  match tokens with
  | t :: rest =>
      if String.eqb t flag
      then match rest with v :: _ => Some v | [] => None end
      else flag_value flag rest
  | [] => None
  end.

(** The encoding preset and the quality (constant rate factor) a command
    line asks for. *)
Definition preset_of (cmd : string) : option string :=
  flag_value "-preset" (split_spaces cmd).

Definition quality_of (cmd : string) : option string :=
  flag_value "-crf" (split_spaces cmd).

(** The constant rate factor written in each builder's template. *)
Definition crf (p : Preset) : string :=
  match p with
  | Split => "23"
  | CropSquare => "20"
  | Blur => "22"
  | Enhance => "20"
  end.


(** ** Asynchronous code

    An [async] function is a tree: its synchronous effects (React state
    setters, [Alert.alert], reading the clock) and its [await]s of platform
    promises, each with the continuation that runs when the promise
    settles. *)

(** A thrown value, seen through what the source reads of it:
    [DocumentPicker.isCancel(e)], [e?.message] and [String(e)]. *)
Record Thrown := {
  isCancel : bool;
  message : option string;
  asString : string
}.

Inductive Outcome (A : Type) : Type :=
| Fulfilled (a : A)
| Rejected (e : Thrown).
Arguments Fulfilled {A} a.
Arguments Rejected {A} e.

(** A finished FFmpegKit session, seen through what [runFFmpeg] reads of it:
    [ReturnCode.isSuccess(await session.getReturnCode())] and
    [await session.getAllLogsAsString?.()] ([None] when that is undefined). *)
Record Session := {
  isSuccess : bool;
  allLogsAsString : option string
}.

Inductive Async (A : Type) : Type :=
| Ret (a : A)
| Throw (e : Thrown)
| SetInputUri (u : string) (k : Async A)
| SetBusy (b : option string) (k : Async A)
| SetOutputs (f : list string -> list string) (k : Async A)
| AlertAlert (title msg : string) (k : Async A)
| NewDateToISOString (k : string -> Async A)
| PickSingle (k : Outcome string -> Async A)
| RNFSExists (path : string) (k : Outcome bool -> Async A)
| RNFSMkdir (path : string) (k : Outcome unit -> Async A)
| ExecuteAsync (cmd : string) (k : Outcome Session -> Async A).
Arguments Ret {A} a.
Arguments Throw {A} e.
Arguments SetInputUri {A} u k.
Arguments SetBusy {A} b k.
Arguments SetOutputs {A} f k.
Arguments AlertAlert {A} title msg k.
Arguments NewDateToISOString {A} k.
Arguments PickSingle {A} k.
Arguments RNFSExists {A} path k.
Arguments RNFSMkdir {A} path k.
Arguments ExecuteAsync {A} cmd k.

(** Sequencing: [const x = await m; f(x)]. *)
Fixpoint bind {A B : Type} (m : Async A) (f : A -> Async B) : Async B :=
  match m with
  | Ret a => f a
  | Throw e => Throw e
  | SetInputUri u k => SetInputUri u (bind k f)
  | SetBusy b k => SetBusy b (bind k f)
  | SetOutputs g k => SetOutputs g (bind k f)
  | AlertAlert t m k => AlertAlert t m (bind k f)
  | NewDateToISOString k => NewDateToISOString (fun d => bind (k d) f)
  | PickSingle k => PickSingle (fun o => bind (k o) f)
  | RNFSExists p k => RNFSExists p (fun o => bind (k o) f)
  | RNFSMkdir p k => RNFSMkdir p (fun o => bind (k o) f)
  | ExecuteAsync c k => ExecuteAsync c (fun r => bind (k r) f)
  end.

(** [try { m } catch (e) { h(e) }] *)
Fixpoint try_catch {A : Type} (m : Async A) (h : Thrown -> Async A) : Async A :=
  match m with
  | Ret a => Ret a
  | Throw e => h e
  | SetInputUri u k => SetInputUri u (try_catch k h)
  | SetBusy b k => SetBusy b (try_catch k h)
  | SetOutputs g k => SetOutputs g (try_catch k h)
  | AlertAlert t m k => AlertAlert t m (try_catch k h)
  | NewDateToISOString k => NewDateToISOString (fun d => try_catch (k d) h)
  | PickSingle k => PickSingle (fun o => try_catch (k o) h)
  | RNFSExists p k => RNFSExists p (fun o => try_catch (k o) h)
  | RNFSMkdir p k => RNFSMkdir p (fun o => try_catch (k o) h)
  | ExecuteAsync c k => ExecuteAsync c (fun r => try_catch (k r) h)
  end.

#[global] Instance Async_ret : MRet Async := @Ret.
#[global] Instance Async_bind : MBind Async := fun A B f m => bind m f.

(** An awaited promise that rejects throws at the [await]. *)
Definition settle {A : Type} (o : Outcome A) : Async A :=
  match o with
  | Fulfilled a => Ret a
  | Rejected e => Throw e
  end.

Definition setInputUri (u : string) : Async unit := SetInputUri u (Ret tt).
Definition setBusy (b : option string) : Async unit := SetBusy b (Ret tt).
Definition setOutputs (f : list string -> list string) : Async unit := SetOutputs f (Ret tt).
Definition alert (title msg : string) : Async unit := AlertAlert title msg (Ret tt).
Definition newDateToISOString : Async string := NewDateToISOString Ret.
Definition pickSingle : Async string := PickSingle settle.
Definition RNFS_exists (path : string) : Async bool := RNFSExists path settle.
Definition RNFS_mkdir (path : string) : Async unit := RNFSMkdir path settle.

(** JavaScript truthiness of a [string | null]: null and the empty string
    are falsy. *)
Definition truthy (v : option string) : bool :=
  match v with
  | Some s => negb (String.eqb s "")
  | None => false
  end.

(** [String(err?.message || err)] *)
Definition errorText (e : Thrown) : string :=
  if truthy (message e) then default "" (message e) else asString e.

(** A [string | null] inside a template literal. *)
Definition interpolate (v : option string) : string := default "null" v.

(** ** The application (app.tsx lines 9-138) *)

Section App.

(** [RNFS.DocumentDirectoryPath], a constant of the platform. *)
Variable DocumentDirectoryPath : string.

Definition isColonOrDot (c : ascii) : bool :=
  Ascii.eqb c ":"%char || Ascii.eqb c "."%char.

(** The pure part of [nowStamp]: [iso.replace(/[:.]/g, "-")]. *)
Definition stampOf (iso : string) : string := replace_class isColonOrDot "-" iso.

Definition nowStamp : Async string :=
  iso ← newDateToISOString; Ret (stampOf iso).

Definition outDir : string := DocumentDirectoryPath +:+ "/outputs".

Definition ensureOutDir : Async string :=
  exists_ ← RNFS_exists outDir;
  (if negb exists_ then RNFS_mkdir outDir else Ret tt);;
  Ret outDir.

Definition pickVideo : Async string := pickSingle.

(** What [runFFmpeg] resolves with. *)
Record RunResult := { ok : bool; logs : string }.

(** [(await session.getAllLogsAsString?.()) || ""] *)
Definition logsOf (session : Session) : string :=
  if truthy (allLogsAsString session) then default "" (allLogsAsString session) else "".

(** The promise resolves from the callback of [FFmpegKit.executeAsync];
    it rejects only if that call throws inside the executor. *)
Definition runFFmpeg (cmd : string) : Async RunResult :=
  ExecuteAsync cmd (fun o =>
    session ← settle o;
    Ret {| ok := isSuccess session; logs := logsOf session |}).

Definition onPick : Async unit :=
  try_catch
    (uri ← pickVideo;
     setInputUri uri;;
     alert "Video selected" uri)
    (fun e =>
       if negb (isCancel e) then alert "Pick failed" (errorText e) else Ret tt).

(** [withRun], closed over the [inputUri] of the render that created it. *)
Definition withRun (inputUri : option string) (label : string)
    (buildCmd : Async string) : Async unit :=
  if negb (truthy inputUri) then alert "No video" "Please pick a video first."
  else
    try_catch
      (setBusy (Some label);;
       ensureOutDir;;
       cmd ← buildCmd;
       r ← runFFmpeg cmd;
       setBusy None;;
       if ok r then alert (label +:+ " done") "Check the output paths below."
       else alert (label +:+ " failed") (slice 0 2000 (logs r)))
      (fun err =>
         setBusy None;;
         alert (label +:+ " error") (errorText err)).

(** The pattern [doSplit] hands to the builder, for a given time stamp. *)
Definition splitPattern (stamp : string) : string :=
  outDir +:+ "/split_" +:+ stamp +:+ "_%03d.mp4".

Definition doSplit (inputUri : option string) : Async unit :=
  withRun inputUri "Split (1-minute)"
    (stamp ← nowStamp;
     let pattern := splitPattern stamp in
     setOutputs (fun o => replace "%03d" "001.." pattern :: o);;
     Ret (buildSplitCommand (interpolate inputUri) pattern)).

Definition doCrop (inputUri : option string) : Async unit :=
  withRun inputUri "Crop (Square)"
    (stamp ← nowStamp;
     let out := outDir +:+ "/crop_" +:+ stamp +:+ ".mp4" in
     setOutputs (fun o => out :: o);;
     Ret (buildCropSquareCommand (interpolate inputUri) out)).

Definition doBlur (inputUri : option string) : Async unit :=
  withRun inputUri "Blur"
    (stamp ← nowStamp;
     let out := outDir +:+ "/blur_" +:+ stamp +:+ ".mp4" in
     setOutputs (fun o => out :: o);;
     Ret (buildBlurCommand (interpolate inputUri) out)).

Definition doEnhance (inputUri : option string) : Async unit :=
  withRun inputUri "Enhance"
    (stamp ← nowStamp;
     let out := outDir +:+ "/enhance_" +:+ stamp +:+ ".mp4" in
     setOutputs (fun o => out :: o);;
     Ret (buildEnhanceCommand (interpolate inputUri) out)).

(** ** The screen as a transition system *)

(** Calls made to the platform. *)
Inductive Call :=
| CallPickSingle
| CallExists (path : string)
| CallMkdir (path : string)
| CallExecuteAsync (cmd : string).

(** The three [useState] cells of [App], what the user has been shown, the
    clock, the handlers suspended at an [await] (oldest first) and the
    platform calls made so far (most recent first). *)
Record State := {
  inputUri : option string;
  busy : option string;
  outputs : list string;
  alerts : list (string * string);
  clock : string;
  pending : list (Async unit);
  calls : list Call
}.

Definition initial : State :=
  {| inputUri := None; busy := None; outputs := []; alerts := [];
     clock := ""; pending := []; calls := [] |}.

Definition with_inputUri (v : option string) (s : State) : State :=
  {| inputUri := v; busy := busy s; outputs := outputs s; alerts := alerts s;
     clock := clock s; pending := pending s; calls := calls s |}.

Definition with_busy (v : option string) (s : State) : State :=
  {| inputUri := inputUri s; busy := v; outputs := outputs s; alerts := alerts s;
     clock := clock s; pending := pending s; calls := calls s |}.

Definition with_outputs (v : list string) (s : State) : State :=
  {| inputUri := inputUri s; busy := busy s; outputs := v; alerts := alerts s;
     clock := clock s; pending := pending s; calls := calls s |}.

Definition with_alerts (v : list (string * string)) (s : State) : State :=
  {| inputUri := inputUri s; busy := busy s; outputs := outputs s; alerts := v;
     clock := clock s; pending := pending s; calls := calls s |}.

Definition with_clock (v : string) (s : State) : State :=
  {| inputUri := inputUri s; busy := busy s; outputs := outputs s; alerts := alerts s;
     clock := v; pending := pending s; calls := calls s |}.

Definition with_pending (v : list (Async unit)) (s : State) : State :=
  {| inputUri := inputUri s; busy := busy s; outputs := outputs s; alerts := alerts s;
     clock := clock s; pending := v; calls := calls s |}.

(** The handler [t] has reached an [await]: the platform call [c] is made
    and the handler waits. *)
Definition suspend (t : Async unit) (c : Call) (s : State) : State :=
  {| inputUri := inputUri s; busy := busy s; outputs := outputs s; alerts := alerts s;
     clock := clock s; pending := pending s ++ [t]; calls := c :: calls s |}.

(** Run a handler up to its next [await] (or to its end). *)
Fixpoint run (t : Async unit) (s : State) : State :=
  match t with
  | Ret _ => s
  | Throw _ => s
  | SetInputUri u k => run k (with_inputUri (Some u) s)
  | SetBusy b k => run k (with_busy b s)
  | SetOutputs f k => run k (with_outputs (f (outputs s)) s)
  | AlertAlert title msg k => run k (with_alerts ((title, msg) :: alerts s) s)
  | NewDateToISOString k => run (k (clock s)) s
  | PickSingle _ => suspend t CallPickSingle s
  | RNFSExists path _ => suspend t (CallExists path) s
  | RNFSMkdir path _ => suspend t (CallMkdir path) s
  | ExecuteAsync cmd _ => suspend t (CallExecuteAsync cmd) s
  end.

Inductive Button :=
| PickButton
| ActionButton (p : Preset).

(** The [onPress] of each [Btn], created by the current render. *)
Definition onPress (b : Button) (s : State) : Async unit :=
  match b with
  | PickButton => onPick
  | ActionButton Split => doSplit (inputUri s)
  | ActionButton CropSquare => doCrop (inputUri s)
  | ActionButton Blur => doBlur (inputUri s)
  | ActionButton Enhance => doEnhance (inputUri s)
  end.

(** The [disabled] prop of each [Btn]: [!inputUri || !!busy] on the four
    action buttons, absent on the pick button. *)
Definition disabled (b : Button) (s : State) : bool :=
  match b with
  | PickButton => false
  | ActionButton _ => negb (truthy (inputUri s)) || truthy (busy s)
  end.

(** What can happen: time passes, a button is touched, or the promise the
    [i]-th suspended handler awaits settles. *)
Inductive Event :=
| Tick (iso : string)
| Press (b : Button)
| PickSettled (i : nat) (o : Outcome string)
| ExistsSettled (i : nat) (o : Outcome bool)
| MkdirSettled (i : nat) (o : Outcome unit)
| ExecuteCompleted (i : nat) (session : Session)
| ExecuteThrew (i : nat) (e : Thrown).

Definition resume (i : nat) (next : Async unit) (s : State) : State :=
  run next (with_pending (delete i (pending s)) s).

(** One event.  The screen is rendered again after every event, so the
    props of a button are those of the current state; a disabled
    [TouchableOpacity] does not call [onPress].  A handler runs from the
    event to its next [await] without interruption, and a settlement is
    delivered to the handler that awaits it and to no other. *)
Definition step (s : State) (ev : Event) : State :=
  match ev with
  | Tick iso => with_clock iso s
  | Press b => if disabled b s then s else run (onPress b s) s
  | PickSettled i o =>
      match pending s !! i with
      | Some (PickSingle k) => resume i (k o) s
      | _ => s
      end
  | ExistsSettled i o =>
      match pending s !! i with
      | Some (RNFSExists _ k) => resume i (k o) s
      | _ => s
      end
  | MkdirSettled i o =>
      match pending s !! i with
      | Some (RNFSMkdir _ k) => resume i (k o) s
      | _ => s
      end
  | ExecuteCompleted i session =>
      match pending s !! i with
      | Some (ExecuteAsync _ k) => resume i (k (Fulfilled session)) s
      | _ => s
      end
  | ExecuteThrew i e =>
      match pending s !! i with
      | Some (ExecuteAsync _ k) => resume i (k (Rejected e)) s
      | _ => s
      end
  end.

Definition exec (evs : list Event) : State := fold_left step evs initial.


(** ** The handlers of a run at their suspension points

    [withRun] suspends at [RNFS.exists], at [RNFS.mkdir] and at
    [FFmpegKit.executeAsync].  The definitions below name what is left of
    the handler at each of them, for the preset [p] and the [inputUri] the
    handler closed over. *)

Definition label (p : Preset) : string :=
  match p with
  | Split => "Split (1-minute)"
  | CropSquare => "Crop (Square)"
  | Blur => "Blur"
  | Enhance => "Enhance"
  end.

(** The path (for Split, the pattern) handed to the builder. *)
Definition outputPath (p : Preset) (stamp : string) : string :=
  match p with
  | Split => splitPattern stamp
  | CropSquare => outDir +:+ "/crop_" +:+ stamp +:+ ".mp4"
  | Blur => outDir +:+ "/blur_" +:+ stamp +:+ ".mp4"
  | Enhance => outDir +:+ "/enhance_" +:+ stamp +:+ ".mp4"
  end.

(** The string [setOutputs] puts in front of the output list. *)
Definition outputRecord (p : Preset) (stamp : string) : string :=
  match p with
  | Split => replace "%03d" "001.." (splitPattern stamp)
  | _ => outputPath p stamp
  end.

(** The [buildCmd] closure of the four [do...] handlers. *)
Definition buildCmdOf (p : Preset) (input : option string) : Async string :=
  stamp ← nowStamp;
  setOutputs (fun o => outputRecord p stamp :: o);;
  Ret (buildCommand p (interpolate input) (outputPath p stamp)).

(** The statements of [withRun] after [runFFmpeg] has resolved. *)
Definition afterRun (l : string) (r : RunResult) : Async unit :=
  setBusy None;;
  if ok r then alert (l +:+ " done") "Check the output paths below."
  else alert (l +:+ " failed") (slice 0 2000 (logs r)).

(** The [catch] block of [withRun]. *)
Definition onError (l : string) (err : Thrown) : Async unit :=
  setBusy None;;
  alert (l +:+ " error") (errorText err).

(** The [try] block of [withRun] once [ensureOutDir] has come to [m]. *)
Definition runFrom (p : Preset) (input : option string) (m : Async string) : Async unit :=
  try_catch
    (m;;
     cmd ← buildCmdOf p input;
     r ← runFFmpeg cmd;
     afterRun (label p) r)
    (onError (label p)).

Definition awaitingExists (p : Preset) (input : option string) : Async unit :=
  runFrom p input ensureOutDir.

Definition awaitingMkdir (p : Preset) (input : option string) : Async unit :=
  runFrom p input (RNFS_mkdir outDir;; Ret outDir).

Definition awaitingFFmpeg (p : Preset) (cmd : string) : Async unit :=
  try_catch (r ← runFFmpeg cmd; afterRun (label p) r) (onError (label p)).

(** What the three suspended handlers do when their promise settles. *)
Definition afterExists (p : Preset) (input : option string) (o : Outcome bool) : Async unit :=
  runFrom p input
    (exists_ ← settle o;
     (if negb exists_ then RNFS_mkdir outDir else Ret tt);;
     Ret outDir).

Definition afterMkdir (p : Preset) (input : option string) (o : Outcome unit) : Async unit :=
  runFrom p input (settle o;; Ret outDir).

Definition afterFFmpeg (p : Preset) (o : Outcome Session) : Async unit :=
  try_catch
    (r ← (session ← settle o;
          Ret {| ok := isSuccess session; logs := logsOf session |});
     afterRun (label p) r)
    (onError (label p)).

(** The state after [buildCmd] and the call of [runFFmpeg]. *)
Definition started (p : Preset) (input : option string) (s : State) : State :=
  let stamp := stampOf (clock s) in
  let cmd := buildCommand p (interpolate input) (outputPath p stamp) in
  suspend (awaitingFFmpeg p cmd) (CallExecuteAsync cmd)
    (with_outputs (outputRecord p stamp :: outputs s) s).

(** The state after the [catch] block. *)
Definition failed (p : Preset) (e : Thrown) (s : State) : State :=
  with_alerts ((label p +:+ " error", errorText e) :: alerts s) (with_busy None s).

(** The state after the statements that follow [runFFmpeg]. *)
Definition finished (p : Preset) (session : Session) (s : State) : State :=
  with_alerts
    ((if isSuccess session
      then (label p +:+ " done", "Check the output paths below.")
      else (label p +:+ " failed", slice 0 2000 (logsOf session))) :: alerts s)
    (with_busy None s).

(** A handler of [onPick] is waiting for the picker; any other suspended
    handler belongs to a run. *)
Definition isRun (t : Async unit) : bool :=
  match t with
  | PickSingle _ => false
  | _ => true
  end.

(** The handler waits for the execution adapter. *)
Definition awaitsFFmpeg (t : Async unit) : bool :=
  match t with
  | ExecuteAsync _ _ => true
  | _ => false
  end.

(** Adapter invocations in flight. *)
Definition inFlight (s : State) : nat :=
  length (List.filter awaitsFFmpeg (pending s)).

(** Where the one run in flight stands, in state [s]. *)
Inductive RunPoint (s : State) (p : Preset) : Async unit -> Prop :=
| AtExists input :
    truthy input = true -> RunPoint s p (awaitingExists p input)
| AtMkdir input :
    truthy input = true -> RunPoint s p (awaitingMkdir p input)
| AtFFmpeg input iso :
    truthy input = true ->
    In (outputRecord p (stampOf iso)) (outputs s) ->
    RunPoint s p
      (awaitingFFmpeg p (buildCommand p (interpolate input) (outputPath p (stampOf iso)))).

(** A suspended handler that is no run is [onPick], waiting for the picker. *)
Definition Known (t : Async unit) : Prop := isRun t = false -> t = onPick.

(** The invariant of the screen: suspended handlers are pickers or runs, at
    most one run is suspended, and [busy] holds its label exactly then. *)
Definition Inv (s : State) : Prop :=
  Forall Known (pending s) /\
  match List.filter isRun (pending s) with
  | [] => busy s = None
  | [t] => exists p, busy s = Some (label p) /\ RunPoint s p t
  | _ => False
  end.

(** ** The file system seen by [ensureOutDir] *)

(** Modelled from the spec: the file-system collaborator (react-native-fs,
    which the source only calls): an existence check and an idempotent
    directory creation that fails only for reasons other than the directory
    existing already.  The state is the set of directories that exist and
    the set of paths at which the platform refuses to create one. *)
Record FileSystem := {
  directories : gset string;
  refused : gset string
}.

Definition couldNotCreate : Thrown :=
  {| isCancel := false;
     message := Some "Directory could not be created";
     asString := "Error: Directory could not be created" |}.

Definition fsExists (fs : FileSystem) (path : string) : bool :=
  bool_decide (path ∈ directories fs).

Definition fsMkdir (fs : FileSystem) (path : string) : Outcome unit * FileSystem :=
  if fsExists fs path then (Fulfilled tt, fs)
  else if bool_decide (path ∈ refused fs) then (Rejected couldNotCreate, fs)
  else (Fulfilled tt,
        {| directories := {[path]} ∪ directories fs; refused := refused fs |}).

(** Run a program that only touches the file system to its end: its
    outcome, the file system it leaves and the calls it made, in order.
    [None] for a program that awaits anything else. *)
Fixpoint runOnFileSystem {A : Type} (t : Async A) (fs : FileSystem)
    : option (Outcome A * FileSystem * list Call) :=
  match t with
  | Ret a => Some (Fulfilled a, fs, [])
  | Throw e => Some (Rejected e, fs, [])
  | RNFSExists path k =>
      match runOnFileSystem (k (Fulfilled (fsExists fs path))) fs with
      | Some (o, fs', cs) => Some (o, fs', CallExists path :: cs)
      | None => None
      end
  | RNFSMkdir path k =>
      match runOnFileSystem (k (fst (fsMkdir fs path))) (snd (fsMkdir fs path)) with
      | Some (o, fs', cs) => Some (o, fs', CallMkdir path :: cs)
      | None => None
      end
  | _ => None
  end.

(** ** Properties *)

Lemma onPress_action (p : Preset) (s : State) :
  onPress (ActionButton p) s = withRun (inputUri s) (label p) (buildCmdOf p (inputUri s)).
Proof. destruct p; reflexivity. Qed.

Lemma withRun_started (p : Preset) (input : option string) :
  truthy input = true ->
  withRun input (label p) (buildCmdOf p input) = SetBusy (Some (label p)) (awaitingExists p input).
Proof. intros H. unfold withRun. rewrite H. reflexivity. Qed.

(** *** Strings *)

Lemma append_cons (x : ascii) (a b : string) : String x a +:+ b = String x (a +:+ b).
Proof. reflexivity. Qed.

Lemma append_assoc (a b c : string) : (a +:+ b) +:+ c = a +:+ (b +:+ c).
Proof.
  induction a as [|x a IH]; [reflexivity|].
  rewrite !append_cons. now f_equal.
Qed.

Lemma len_append (a b : string) : len (a +:+ b) = len a + len b.
Proof.
  induction a as [|x a IH]; [reflexivity|].
  rewrite append_cons. unfold len in *. simpl. now f_equal.
Qed.

Lemma startsWith_append (p s : string) : startsWith (p +:+ s) p = true.
Proof.
  unfold startsWith. induction p as [|x p IH].
  - now destruct s.
  - rewrite append_cons. simpl.
    destruct (ascii_dec x x) as [_|Hne]; [exact IH | now destruct Hne].
Qed.

Lemma startsWith_split (s p : string) :
  startsWith s p = true -> s = p +:+ str_drop (len p) s.
Proof.
  unfold startsWith, len. revert s. induction p as [|x p IH]; intros s H.
  - now destruct s.
  - destruct s as [|y s]; [discriminate|]. simpl in H.
    destruct (ascii_dec x y) as [->|]; [|discriminate].
    rewrite append_cons. simpl. f_equal. now apply IH.
Qed.

Lemma includes_here (sub post : string) : includes (sub +:+ post) sub = true.
Proof.
  destruct (sub +:+ post) eqn:E; cbn [includes].
  - destruct sub; [reflexivity | discriminate].
  - rewrite <- E, startsWith_append. reflexivity.
Qed.

Lemma includes_startsWith (s sub : string) :
  startsWith s sub = true -> includes s sub = true.
Proof.
  intros H. destruct s; cbn [includes]; [exact H | now rewrite H].
Qed.

Lemma includes_append_r (pre s sub : string) :
  includes s sub = true -> includes (pre +:+ s) sub = true.
Proof.
  intros H. induction pre as [|x pre IH]; [exact H|].
  rewrite append_cons. cbn [includes]. rewrite IH. apply orb_true_r.
Qed.

Lemma includes_intro (pre sub post : string) :
  includes (pre +:+ sub +:+ post) sub = true.
Proof. apply includes_append_r, includes_here. Qed.

Lemma includes_elim (s sub : string) :
  includes s sub = true -> exists pre post, s = pre +:+ sub +:+ post.
Proof.
  induction s as [|x s IH]; cbn [includes]; intros H.
  - exists "", (str_drop (len sub) ""). now apply startsWith_split.
  - apply orb_true_iff in H as [H|H].
    + exists "", (str_drop (len sub) (String x s)). now apply startsWith_split.
    + destruct (IH H) as (pre & post & ->). now exists (String x pre), post.
Qed.

Lemma str_drop_append (a b : string) : str_drop (len a) (a +:+ b) = b.
Proof.
  induction a as [|x a IH]; [now destruct b|].
  rewrite append_cons. exact IH.
Qed.

Lemma endsWith_append (pre suf : string) : endsWith (pre +:+ suf) suf = true.
Proof.
  unfold endsWith. rewrite len_append.
  replace (len pre + len suf - len suf) with (len pre) by lia.
  rewrite str_drop_append, String.eqb_refl, andb_true_r.
  apply Nat.leb_le. lia.
Qed.

Lemma count_char_append (c : ascii) (a b : string) :
  count_char c (a +:+ b) = count_char c a + count_char c b.
Proof.
  induction a as [|x a IH]; [reflexivity|].
  rewrite append_cons. simpl. rewrite IH. lia.
Qed.

Lemma str_take_drop (n : nat) (s : string) : str_take n s +:+ str_drop n s = s.
Proof.
  revert s. induction n as [|n IH]; intros [|x s]; try reflexivity.
  simpl. rewrite append_cons. now rewrite IH.
Qed.

Lemma len_str_take (n : nat) (s : string) : len (str_take n s) <= n.
Proof.
  unfold len. revert s. induction n as [|n IH]; intros [|x s]; simpl; try lia.
  specialize (IH s). lia.
Qed.

(** [slice(0, n)] keeps a prefix of at most [n] characters. *)
Lemma slice_prefix (n : nat) (s : string) :
  len (slice 0 n s) <= n /\ s = slice 0 n s +:+ str_drop n s.
Proof.
  unfold slice. rewrite Nat.sub_0_r.
  replace (str_drop 0 s) with s by now destruct s.
  split; [apply len_str_take | now rewrite str_take_drop].
Qed.

(** Replacing a pattern by a text that starts with another character
    changes every string in which the pattern occurs. *)
Lemma replace_changes (a b : ascii) (pat rep s : string) :
  a <> b -> includes s (String a pat) = true ->
  replace (String a pat) (String b rep) s <> s.
Proof.
  intros Hab. induction s as [|x s IH]; intros H.
  - discriminate.
  - cbn [includes] in H. cbn [replace].
    destruct (startsWith (String x s) (String a pat)) eqn:E.
    + unfold startsWith in E. simpl in E.
      destruct (ascii_dec a x) as [<-|]; [|discriminate].
      rewrite append_cons. intros Heq. congruence.
    + simpl in H. intros Heq. injection Heq as Heq. now apply IH.
Qed.

(** The first occurrence is looked for from the left: a prefix without the
    pattern's first character is skipped. *)
Lemma replace_skip (a : ascii) (pat rep pre s : string) :
  count_char a pre = 0 ->
  replace (String a pat) rep (pre +:+ s) = pre +:+ replace (String a pat) rep s.
Proof.
  induction pre as [|x pre IH]; intros H; [reflexivity|].
  simpl in H. rewrite !append_cons. cbn [replace].
  unfold startsWith. simpl.
  destruct (ascii_dec a x) as [->|Hne].
  - rewrite Ascii.eqb_refl in H. discriminate.
  - rewrite IH; [reflexivity|]. destruct (Ascii.eqb x a); [discriminate | exact H].
Qed.

Lemma count_char_replace_class (c : ascii) (cls : ascii -> bool) (rep s : string) :
  cls c = false -> count_char c rep = 0 ->
  count_char c (replace_class cls rep s) = count_char c s.
Proof.
  intros Hc Hrep. induction s as [|x s IH]; simpl; [reflexivity|].
  rewrite count_char_append, IH. destruct (cls x) eqn:E.
  - rewrite Hrep. destruct (Ascii.eqb_spec x c) as [->|]; [congruence | reflexivity].
  - simpl. lia.
Qed.

Lemma split_spaces_token (a b : string) :
  count_char " " a = 0 ->
  split_spaces (a +:+ " " +:+ b) = a :: split_spaces b.
Proof.
  induction a as [|x a IH]; intros H; [reflexivity|].
  rewrite append_cons. cbn [split_spaces]. simpl in H.
  destruct (Ascii.eqb x " "); [discriminate|].
  now rewrite IH.
Qed.

Lemma startsWith_quoted (a b c d rest : string) :
  startsWith (a +:+ b +:+ c +:+ d +:+ rest) (a +:+ b +:+ c +:+ d) = true.
Proof.
  replace (a +:+ b +:+ c +:+ d +:+ rest) with ((a +:+ b +:+ c +:+ d) +:+ rest)
    by (rewrite !append_assoc; reflexivity).
  apply startsWith_append.
Qed.

Lemma endsWith_elim (s suf : string) :
  endsWith s suf = true -> exists pre, s = pre +:+ suf.
Proof.
  unfold endsWith. intros H. apply andb_true_iff in H as [_ H].
  apply String.eqb_eq in H. exists (str_take (len s - len suf) s).
  rewrite <- H at 2. now rewrite str_take_drop.
Qed.

Lemma endsWith_here (suf : string) : endsWith suf suf = true.
Proof. apply (endsWith_append "" suf). Qed.

Lemma endsWith_append_r (pre s suf : string) :
  endsWith s suf = true -> endsWith (pre +:+ s) suf = true.
Proof.
  intros H. destruct (endsWith_elim _ _ H) as [pre' ->].
  rewrite <- append_assoc. apply endsWith_append.
Qed.

(** *** Command builders *)

(** C2: for the input reference file:///a.mp4 and the output path
    /out/crop_T.mp4, buildCropSquareCommand returns a string that contains
    -i followed by the quoted input, contains the crop-and-scale filter, and
    ends with the quoted output path, which is its final token. *)
Theorem crop_square_scenario :
  let cmd := buildCropSquareCommand "file:///a.mp4" "/out/crop_T.mp4" in
  includes cmd ("-i " +:+ dquote +:+ "file:///a.mp4" +:+ dquote) = true /\
  includes cmd "crop='min(iw,ih)':'min(iw,ih)',scale=1080:1080" = true /\
  endsWith cmd (dquote +:+ "/out/crop_T.mp4" +:+ dquote) = true /\
  last (split_spaces cmd) = Some (dquote +:+ "/out/crop_T.mp4" +:+ dquote).
Proof.
  intros cmd. subst cmd. unfold buildCropSquareCommand.
  split; [|split; [|split]].
  - apply includes_startsWith, startsWith_quoted.
  - do 5 apply includes_append_r. apply includes_here.
  - do 7 apply endsWith_append_r. apply endsWith_here.
  - reflexivity.
Qed.

Ltac find_argument :=
  repeat first [ apply includes_here | apply includes_append_r ].

Ltac find_suffix :=
  repeat first [ apply endsWith_here | apply endsWith_append_r ].

(** C3 (amended): each of the four builders returns a string that starts
    with -i and the input between double quotes and ends with the output
    between double quotes, so it contains both exactly as passed; the
    builders escape nothing, and the string has four double quotes, the two
    surrounding pairs, besides those that occur in the arguments. *)
Theorem builders_embed_arguments (p : Preset) (input output : string) :
  let cmd := buildCommand p input output in
  startsWith cmd ("-i " +:+ dquote +:+ input +:+ dquote) = true /\
  endsWith cmd (dquote +:+ output +:+ dquote) = true /\
  includes cmd input = true /\
  includes cmd output = true /\
  count_char "034" cmd = 4 + count_char "034" input + count_char "034" output.
Proof.
  intros cmd. subst cmd.
  destruct p; cbv [buildCommand buildSplitCommand buildCropSquareCommand
                   buildBlurCommand buildEnhanceCommand];
    (split; [|split; [|split; [|split]]]);
    first [ apply startsWith_quoted
          | solve [find_suffix]
          | solve [find_argument]
          | rewrite !count_char_append; simpl; lia ].
Qed.

(** Counterexample to C3 as stated: a double quote inside the input
    reference comes out unescaped, a fifth one next to the two surrounding
    pairs. *)
Lemma quote_in_input_not_escaped :
  let cmd := buildCropSquareCommand ("a" +:+ dquote +:+ "b") "/out/x.mp4" in
  unescaped_dquotes cmd = 5 /\ unescaped_dquotes cmd <> 4.
Proof. split; [reflexivity | discriminate]. Qed.

Lemma flag_value_next (flag t v : string) (rest : list string) :
  flag_value flag (t :: v :: rest) =
  if String.eqb t flag then Some v else flag_value flag (v :: rest).
Proof. reflexivity. Qed.

Lemma quoted_is_no_flag (input flag : string) :
  String.eqb (dquote +:+ input +:+ dquote) (String "-" flag) = false.
Proof. reflexivity. Qed.

Lemma quoted_is_one_token (input : string) :
  count_char " " input = 0 -> count_char " " (dquote +:+ input +:+ dquote) = 0.
Proof. intros H. rewrite !count_char_append, H. reflexivity. Qed.

Lemma split_spaces_join (ts : list string) (rest : string) :
  Forall (fun t => count_char " " t = 0) ts ->
  split_spaces (join_spaces ts rest) = ts ++ split_spaces rest.
Proof.
  induction 1 as [|t ts Ht _ IH]; [reflexivity|].
  cbn [join_spaces]. rewrite split_spaces_token by exact Ht.
  now rewrite IH.
Qed.

Ltac read_tokens H :=
  match goal with
  | |- split_spaces ?cmd = ?ts ++ split_spaces ?rest =>
      replace cmd with (join_spaces ts rest)
        by (cbn [join_spaces]; rewrite !append_assoc; reflexivity);
      apply split_spaces_join;
      repeat constructor; exact H
  end.

(** The tokens of a command up to its quality value. *)
Lemma tokens_of_command (p : Preset) (input output : string) :
  count_char " " input = 0 ->
  exists m1 m2 rest,
    split_spaces (buildCommand p input output) =
    "-i" :: (dquote +:+ input +:+ dquote) :: m1 :: m2 ::
    "-c:v" :: "libx264" :: "-preset" :: "veryfast" :: "-crf" :: crf p :: rest /\
    String.eqb m1 "-preset" = false /\ String.eqb m2 "-preset" = false /\
    String.eqb m1 "-crf" = false /\ String.eqb m2 "-crf" = false.
Proof.
  intros H. apply quoted_is_one_token in H.
  destruct p; cbv [buildCommand buildSplitCommand buildCropSquareCommand
                   buildBlurCommand buildEnhanceCommand crf].
  - exists "-map", "0",
      (split_spaces ("-c:a aac -segment_time 60 -f segment -reset_timestamps 1 " +:+
                     dquote +:+ output +:+ dquote)).
    split; [|repeat split].
    change (?a :: ?b :: ?c :: ?d :: ?e :: ?f :: ?g :: ?h :: ?i :: ?j :: ?r)
      with ([a; b; c; d; e; f; g; h; i; j] ++ r).
    read_tokens H.
  - exists "-vf", "crop='min(iw,ih)':'min(iw,ih)',scale=1080:1080",
      (split_spaces ("-c:a copy " +:+ dquote +:+ output +:+ dquote)).
    split; [|repeat split].
    change (?a :: ?b :: ?c :: ?d :: ?e :: ?f :: ?g :: ?h :: ?i :: ?j :: ?r)
      with ([a; b; c; d; e; f; g; h; i; j] ++ r).
    read_tokens H.
  - exists "-vf", "boxblur=10:1",
      (split_spaces ("-c:a copy " +:+ dquote +:+ output +:+ dquote)).
    split; [|repeat split].
    change (?a :: ?b :: ?c :: ?d :: ?e :: ?f :: ?g :: ?h :: ?i :: ?j :: ?r)
      with ([a; b; c; d; e; f; g; h; i; j] ++ r).
    read_tokens H.
  - exists "-vf", "unsharp=5:5:1.0:5:5:0.0,eq=contrast=1.08:brightness=0.02:saturation=1.15",
      (split_spaces ("-c:a copy " +:+ dquote +:+ output +:+ dquote)).
    split; [|repeat split].
    change (?a :: ?b :: ?c :: ?d :: ?e :: ?f :: ?g :: ?h :: ?i :: ?j :: ?r)
      with ([a; b; c; d; e; f; g; h; i; j] ++ r).
    read_tokens H.
Qed.

Lemma includes_append_l (s post sub : string) :
  includes s sub = true -> includes (s +:+ post) sub = true.
Proof.
  intros H. destruct (includes_elim _ _ H) as (pre & post' & ->).
  rewrite !append_assoc. apply includes_intro.
Qed.

Ltac find_option :=
  repeat first [ reflexivity
               | apply includes_append_l; reflexivity
               | apply includes_append_r ].

(** C9 (amended): for every input and output the four command strings ask
    for the same encoding preset, veryfast; each asks for a fixed quality
    that does not depend on its arguments, but the qualities differ between
    builders: 23 for Split, 20 for CropSquare, 22 for Blur and 20 for
    Enhance.  For an input without spaces these are the values that follow
    the -preset and -crf tokens. *)
Theorem builders_encoding_options (input output : string) :
  (forall p,
     includes (buildCommand p input output) " -preset veryfast " = true /\
     includes (buildCommand p input output) (" -crf " +:+ crf p +:+ " ") = true) /\
  (count_char " " input = 0 ->
   forall p,
     preset_of (buildCommand p input output) = Some "veryfast" /\
     quality_of (buildCommand p input output) = Some (crf p)).
Proof.
  split.
  - intros p.
    destruct p; cbv [buildCommand buildSplitCommand buildCropSquareCommand
                     buildBlurCommand buildEnhanceCommand crf];
      split; find_option.
  - intros H p. unfold preset_of, quality_of.
    destruct (tokens_of_command p input output H)
      as (m1 & m2 & rest & -> & Hp1 & Hp2 & Hq1 & Hq2).
    cbn [flag_value]. rewrite !quoted_is_no_flag, Hp1, Hp2, Hq1, Hq2.
    split; reflexivity.
Qed.

(** Counterexample to C9 as stated: on one and the same input and output
    the Split command asks for quality 23 and the CropSquare command for
    quality 20. *)
Lemma split_and_crop_qualities_differ :
  let split := buildSplitCommand "file:///a.mp4" "/out/x.mp4" in
  let crop := buildCropSquareCommand "file:///a.mp4" "/out/x.mp4" in
  quality_of split = Some "23" /\ quality_of crop = Some "20" /\
  quality_of split <> quality_of crop /\
  includes split " -crf 23 " = true /\ includes crop " -crf 23 " = false.
Proof. intros split crop. repeat split; try reflexivity. vm_compute. discriminate. Qed.

(** *** Handlers at their suspension points *)

Lemma awaitingExists_node (p : Preset) (input : option string) :
  awaitingExists p input = RNFSExists outDir (afterExists p input).
Proof. reflexivity. Qed.

Lemma awaitingMkdir_node (p : Preset) (input : option string) :
  awaitingMkdir p input = RNFSMkdir outDir (afterMkdir p input).
Proof. reflexivity. Qed.

Lemma awaitingFFmpeg_node (p : Preset) (cmd : string) :
  awaitingFFmpeg p cmd = ExecuteAsync cmd (afterFFmpeg p).
Proof. reflexivity. Qed.

Lemma run_afterExists_true (p : Preset) (input : option string) (s : State) :
  run (afterExists p input (Fulfilled true)) s = started p input s.
Proof. reflexivity. Qed.

Lemma run_afterExists_false (p : Preset) (input : option string) (s : State) :
  run (afterExists p input (Fulfilled false)) s =
  suspend (awaitingMkdir p input) (CallMkdir outDir) s.
Proof. reflexivity. Qed.

Lemma run_afterExists_rejected (p : Preset) (input : option string) (e : Thrown) (s : State) :
  run (afterExists p input (Rejected e)) s = failed p e s.
Proof. reflexivity. Qed.

Lemma run_afterMkdir_fulfilled (p : Preset) (input : option string) (s : State) :
  run (afterMkdir p input (Fulfilled tt)) s = started p input s.
Proof. reflexivity. Qed.

Lemma run_afterMkdir_rejected (p : Preset) (input : option string) (e : Thrown) (s : State) :
  run (afterMkdir p input (Rejected e)) s = failed p e s.
Proof. reflexivity. Qed.

Lemma run_afterFFmpeg (p : Preset) (session : Session) (s : State) :
  run (afterFFmpeg p (Fulfilled session)) s = finished p session s.
Proof. unfold finished. destruct (isSuccess session) eqn:E; cbn; rewrite E; reflexivity. Qed.

Lemma run_afterFFmpeg_rejected (p : Preset) (e : Thrown) (s : State) :
  run (afterFFmpeg p (Rejected e)) s = failed p e s.
Proof. reflexivity. Qed.

(** *** The invariant *)

Lemma lookup_split {A : Type} (l : list A) (i : nat) (x : A) :
  l !! i = Some x -> exists l1 l2, l = l1 ++ x :: l2 /\ delete i l = l1 ++ l2.
Proof.
  intros H. exists (take i l), (drop (S i) l). split.
  - symmetry. now apply take_drop_middle.
  - apply delete_take_drop.
Qed.

Lemma RunPoint_is_run (s : State) (p : Preset) (t : Async unit) :
  RunPoint s p t -> isRun t = true.
Proof. intros []; reflexivity. Qed.

Lemma RunPoint_outputs (s s' : State) (p : Preset) (t : Async unit) :
  (forall r, In r (outputs s) -> In r (outputs s')) ->
  RunPoint s p t -> RunPoint s' p t.
Proof. intros H []; constructor; auto. Qed.

Lemma label_truthy (p : Preset) : truthy (Some (label p)) = true.
Proof. destruct p; reflexivity. Qed.

Lemma Inv_idle (s : State) :
  Forall Known (pending s) -> List.filter isRun (pending s) = [] ->
  busy s = None -> Inv s.
Proof. intros HF HN Hb. split; [exact HF | now rewrite HN]. Qed.

Lemma Inv_running (s : State) (l : list (Async unit)) (t : Async unit) (p : Preset) :
  pending s = l ++ [t] -> Forall Known l -> List.filter isRun l = [] ->
  busy s = Some (label p) -> RunPoint s p t -> Inv s.
Proof.
  intros Hp HF HN Hb Hr. pose proof (RunPoint_is_run _ _ _ Hr) as Ht.
  split.
  - rewrite Hp. apply Forall_app. split; [exact HF|].
    constructor; [|constructor]. intros H. congruence.
  - rewrite Hp, List.filter_app, HN. cbn [List.filter app]. rewrite Ht. eauto.
Qed.

Lemma Inv_frame (s s' : State) :
  pending s' = pending s -> busy s' = busy s -> outputs s' = outputs s ->
  Inv s -> Inv s'.
Proof.
  intros Hp Hb Ho [HF HM]. split; rewrite Hp; [exact HF|].
  destruct (List.filter isRun (pending s)) as [|t [|]]; try congruence.
  destruct HM as (p & Hbusy & Hr). exists p. split; [congruence|].
  eapply RunPoint_outputs; [|exact Hr]. intros r. now rewrite Ho.
Qed.

(** Taking a picker out of the suspended handlers leaves the run, if any. *)
Lemma Inv_take_pick (s : State) (i : nat) (t : Async unit) :
  Inv s -> pending s !! i = Some t -> isRun t = false ->
  t = onPick /\ Inv (with_pending (delete i (pending s)) s).
Proof.
  intros [HF HM] Hi Ht.
  destruct (lookup_split _ _ _ Hi) as (l1 & l2 & Hl & Hd).
  rewrite Hl in HF, HM. apply Forall_app in HF as [HF1 HF2].
  apply Forall_cons in HF2 as [Hk HF2].
  split; [now apply Hk|].
  rewrite List.filter_app in HM. cbn [List.filter] in HM. rewrite Ht in HM.
  rewrite <- List.filter_app in HM.
  split; cbn [pending with_pending]; rewrite Hd.
  - apply Forall_app. now split.
  - destruct (List.filter isRun (l1 ++ l2)) as [|t0 [|]]; try exact HM.
    destruct HM as (p & Hb & Hr). exists p. split; [exact Hb|].
    eapply RunPoint_outputs; [|exact Hr]. auto.
Qed.

(** A suspended run is the only one: without it no run is suspended. *)
Lemma Inv_take_run (s : State) (i : nat) (t : Async unit) :
  Inv s -> pending s !! i = Some t -> isRun t = true ->
  (exists p, busy s = Some (label p) /\ RunPoint s p t) /\
  Forall Known (delete i (pending s)) /\
  List.filter isRun (delete i (pending s)) = [].
Proof.
  intros [HF HM] Hi Ht.
  destruct (lookup_split _ _ _ Hi) as (l1 & l2 & Hl & Hd).
  rewrite Hd. rewrite Hl in HF, HM. apply Forall_app in HF as [HF1 HF2].
  apply Forall_cons in HF2 as [_ HF2].
  rewrite List.filter_app in HM. cbn [List.filter] in HM. rewrite Ht in HM.
  rewrite List.filter_app.
  destruct (List.filter isRun l1) as [|a l1'].
  - destruct (List.filter isRun l2) as [|b l2']; [|contradiction].
    split; [exact HM|]. split; [|reflexivity]. apply Forall_app. now split.
  - destruct l1'; contradiction.
Qed.

Lemma RunPoint_exists (s : State) (p : Preset) (path : string) k :
  RunPoint s p (RNFSExists path k) ->
  exists input, truthy input = true /\ path = outDir /\ k = afterExists p input.
Proof.
  intros H. remember (RNFSExists path k) as t eqn:E.
  destruct H as [input Hi | input Hi | input iso Hi Ho].
  - rewrite awaitingExists_node in E. injection E as <- <-. eauto.
  - rewrite awaitingMkdir_node in E. discriminate.
  - rewrite awaitingFFmpeg_node in E. discriminate.
Qed.

Lemma RunPoint_mkdir (s : State) (p : Preset) (path : string) k :
  RunPoint s p (RNFSMkdir path k) ->
  exists input, truthy input = true /\ path = outDir /\ k = afterMkdir p input.
Proof.
  intros H. remember (RNFSMkdir path k) as t eqn:E.
  destruct H as [input Hi | input Hi | input iso Hi Ho].
  - rewrite awaitingExists_node in E. discriminate.
  - rewrite awaitingMkdir_node in E. injection E as <- <-. eauto.
  - rewrite awaitingFFmpeg_node in E. discriminate.
Qed.

Lemma RunPoint_ffmpeg (s : State) (p : Preset) (cmd : string) k :
  RunPoint s p (ExecuteAsync cmd k) ->
  exists input iso,
    truthy input = true /\ In (outputRecord p (stampOf iso)) (outputs s) /\
    cmd = buildCommand p (interpolate input) (outputPath p (stampOf iso)) /\
    k = afterFFmpeg p.
Proof.
  intros H. remember (ExecuteAsync cmd k) as t eqn:E.
  destruct H as [input Hi | input Hi | input iso Hi Ho].
  - rewrite awaitingExists_node in E. discriminate.
  - rewrite awaitingMkdir_node in E. discriminate.
  - rewrite awaitingFFmpeg_node in E. injection E as <- <-. eauto 10.
Qed.

Lemma RunPoint_other (s : State) (p : Preset) (t : Async unit) :
  RunPoint s p t ->
  match t with
  | RNFSExists _ _ | RNFSMkdir _ _ | ExecuteAsync _ _ => True
  | _ => False
  end.
Proof. intros []; exact I. Qed.

Lemma run_onPick (s : State) : run onPick s = suspend onPick CallPickSingle s.
Proof. reflexivity. Qed.

(** No run is suspended while [busy] is falsy. *)
Lemma Inv_not_busy (s : State) :
  Inv s -> truthy (busy s) = false ->
  List.filter isRun (pending s) = [] /\ busy s = None.
Proof.
  intros [_ HM] Hb. destruct (List.filter isRun (pending s)) as [|t [|]].
  - now split.
  - destruct HM as (p & Hp & _). rewrite Hp, label_truthy in Hb. discriminate.
  - contradiction.
Qed.

(** No run is suspended while [busy] is null, and conversely. *)
Lemma Inv_busy_iff (s : State) :
  Inv s -> (busy s = None <-> List.filter isRun (pending s) = []).
Proof.
  intros [_ HM]. destruct (List.filter isRun (pending s)) as [|t [|]].
  - now split.
  - destruct HM as (p & Hp & _). rewrite Hp. split; discriminate.
  - contradiction.
Qed.

Lemma started_Inv (s : State) (i : nat) (p : Preset) (input : option string) :
  Forall Known (delete i (pending s)) ->
  List.filter isRun (delete i (pending s)) = [] ->
  busy s = Some (label p) -> truthy input = true ->
  Inv (started p input (with_pending (delete i (pending s)) s)).
Proof.
  intros HF HN Hb Hi.
  eapply (Inv_running _ (delete i (pending s))); try eassumption; try reflexivity.
  apply (AtFFmpeg _ p input (clock s)); [exact Hi | now left].
Qed.

Theorem step_Inv (s : State) (ev : Event) : Inv s -> Inv (step s ev).
Proof.
  intros HI. destruct ev as [iso | b | i o | i o | i o | i session | i e]; cbn [step].
  - now apply (Inv_frame s).
  - destruct (disabled b s) eqn:Hd; [exact HI|]. destruct b as [|p].
    + cbn [onPress]. rewrite run_onPick. destruct HI as [HF HM]. split.
      * cbn [pending suspend]. apply Forall_app. split; [exact HF|].
        constructor; [|constructor]. now intros _.
      * cbn [pending suspend]. rewrite List.filter_app. cbn [List.filter isRun onPick].
        rewrite app_nil_r.
        destruct (List.filter isRun (pending s)) as [|t [|]]; try exact HM.
        destruct HM as (p & Hb & Hr). exists p. split; [exact Hb|].
        eapply RunPoint_outputs; [|exact Hr]. auto.
    + cbn [disabled] in Hd. apply orb_false_iff in Hd as [Hin Hb].
      apply negb_false_iff in Hin.
      destruct (Inv_not_busy _ HI Hb) as [HN _].
      rewrite onPress_action, withRun_started by exact Hin.
      cbn [run]. rewrite awaitingExists_node. cbn [run]. rewrite <- awaitingExists_node.
      eapply (Inv_running _ (pending s)); try reflexivity; try assumption.
      * now destruct HI.
      * now constructor.
  - destruct (pending s !! i) as [t|] eqn:Hi; [|exact HI].
    destruct t; try exact HI.
    destruct (Inv_take_pick _ _ _ HI Hi eq_refl) as [Hk HI'].
    unfold onPick in Hk. cbn in Hk. injection Hk as ->.
    unfold resume. destruct o as [uri|e]; cbn.
    + eapply Inv_frame; [| | |exact HI']; reflexivity.
    + destruct (isCancel e); cbn; (eapply Inv_frame; [| | |exact HI']; reflexivity).
  - destruct (pending s !! i) as [t|] eqn:Hi; [|exact HI].
    destruct t; try exact HI.
    destruct (Inv_take_run _ _ _ HI Hi eq_refl) as ((p & Hb & Hr) & HF & HN).
    apply RunPoint_exists in Hr as (input & Hin & -> & ->).
    unfold resume. destruct o as [[|]|e].
    + rewrite run_afterExists_true. now apply started_Inv.
    + rewrite run_afterExists_false.
      eapply (Inv_running _ (delete i (pending s))); try eassumption; try reflexivity.
      now constructor.
    + rewrite run_afterExists_rejected. now apply Inv_idle.
  - destruct (pending s !! i) as [t|] eqn:Hi; [|exact HI].
    destruct t; try exact HI.
    destruct (Inv_take_run _ _ _ HI Hi eq_refl) as ((p & Hb & Hr) & HF & HN).
    apply RunPoint_mkdir in Hr as (input & Hin & -> & ->).
    unfold resume. destruct o as [[]|e].
    + rewrite run_afterMkdir_fulfilled. now apply started_Inv.
    + rewrite run_afterMkdir_rejected. now apply Inv_idle.
  - destruct (pending s !! i) as [t|] eqn:Hi; [|exact HI].
    destruct t; try exact HI.
    destruct (Inv_take_run _ _ _ HI Hi eq_refl) as ((p & Hb & Hr) & HF & HN).
    apply RunPoint_ffmpeg in Hr as (input & iso & Hin & Ho & -> & ->).
    unfold resume. rewrite run_afterFFmpeg. now apply Inv_idle.
  - destruct (pending s !! i) as [t|] eqn:Hi; [|exact HI].
    destruct t; try exact HI.
    destruct (Inv_take_run _ _ _ HI Hi eq_refl) as ((p & Hb & Hr) & HF & HN).
    apply RunPoint_ffmpeg in Hr as (input & iso & Hin & Ho & -> & ->).
    unfold resume. rewrite run_afterFFmpeg_rejected. now apply Inv_idle.
Qed.

Lemma initial_Inv : Inv initial.
Proof. now apply Inv_idle. Qed.

Lemma fold_Inv (evs : list Event) (s : State) :
  Inv s -> Inv (fold_left step evs s).
Proof.
  revert s. induction evs as [|ev evs IH]; intros s H; [exact H|].
  apply IH, step_Inv, H.
Qed.

Theorem exec_Inv (evs : list Event) : Inv (exec evs).
Proof. apply fold_Inv, initial_Inv. Qed.

(** *** What a settlement does in a reachable state *)

Lemma settle_exists (s : State) (i : nat) (path : string) k (o : Outcome bool) :
  Inv s -> pending s !! i = Some (RNFSExists path k) ->
  exists p input,
    busy s = Some (label p) /\ truthy input = true /\ path = outDir /\
    step s (ExistsSettled i o) =
    run (afterExists p input o) (with_pending (delete i (pending s)) s) /\
    List.filter isRun (delete i (pending s)) = [].
Proof.
  intros HI Hi.
  destruct (Inv_take_run _ _ _ HI Hi eq_refl) as ((p & Hb & Hr) & HF & HN).
  apply RunPoint_exists in Hr as (input & Hin & -> & ->).
  exists p, input. cbn [step]. rewrite Hi. auto.
Qed.

Lemma settle_mkdir (s : State) (i : nat) (path : string) k (o : Outcome unit) :
  Inv s -> pending s !! i = Some (RNFSMkdir path k) ->
  exists p input,
    busy s = Some (label p) /\ truthy input = true /\ path = outDir /\
    step s (MkdirSettled i o) =
    run (afterMkdir p input o) (with_pending (delete i (pending s)) s) /\
    List.filter isRun (delete i (pending s)) = [].
Proof.
  intros HI Hi.
  destruct (Inv_take_run _ _ _ HI Hi eq_refl) as ((p & Hb & Hr) & HF & HN).
  apply RunPoint_mkdir in Hr as (input & Hin & -> & ->).
  exists p, input. cbn [step]. rewrite Hi. auto.
Qed.

Lemma settle_ffmpeg (s : State) (i : nat) (cmd : string) k :
  Inv s -> pending s !! i = Some (ExecuteAsync cmd k) ->
  exists p input iso,
    busy s = Some (label p) /\ truthy input = true /\
    cmd = buildCommand p (interpolate input) (outputPath p (stampOf iso)) /\
    In (outputRecord p (stampOf iso)) (outputs s) /\
    (forall session,
       step s (ExecuteCompleted i session) =
       finished p session (with_pending (delete i (pending s)) s)) /\
    (forall e,
       step s (ExecuteThrew i e) =
       failed p e (with_pending (delete i (pending s)) s)) /\
    List.filter isRun (delete i (pending s)) = [].
Proof.
  intros HI Hi.
  destruct (Inv_take_run _ _ _ HI Hi eq_refl) as ((p & Hb & Hr) & HF & HN).
  apply RunPoint_ffmpeg in Hr as (input & iso & Hin & Ho & -> & ->).
  exists p, input, iso. cbn [step]. rewrite Hi. unfold resume.
  split; [exact Hb|]. split; [exact Hin|]. split; [reflexivity|].
  split; [exact Ho|]. split; [|split; [|exact HN]].
  - intros session. now rewrite run_afterFFmpeg.
  - intros e. now rewrite run_afterFFmpeg_rejected.
Qed.

Lemma settle_pick (s : State) (i : nat) k (o : Outcome string) :
  Inv s -> pending s !! i = Some (PickSingle k) ->
  step s (PickSettled i o) =
  let s0 := with_pending (delete i (pending s)) s in
  match o with
  | Fulfilled uri =>
      with_alerts (("Video selected", uri) :: alerts s) (with_inputUri (Some uri) s0)
  | Rejected e =>
      if isCancel e then s0
      else with_alerts (("Pick failed", errorText e) :: alerts s) s0
  end.
Proof.
  intros HI Hi.
  destruct (Inv_take_pick _ _ _ HI Hi eq_refl) as [Hk _].
  unfold onPick in Hk. cbn in Hk. injection Hk as ->.
  cbn [step]. rewrite Hi. unfold resume.
  destruct o as [uri|e]; [reflexivity|]. cbn. now destruct (isCancel e).
Qed.

Lemma press_action (s : State) (p : Preset) :
  Inv s -> disabled (ActionButton p) s = false ->
  busy s = None /\ truthy (inputUri s) = true /\
  step s (Press (ActionButton p)) =
  suspend (awaitingExists p (inputUri s)) (CallExists outDir)
    (with_busy (Some (label p)) s).
Proof.
  intros HI Hd. cbn [step]. rewrite Hd.
  cbn [disabled] in Hd. apply orb_false_iff in Hd as [Hin Hb].
  apply negb_false_iff in Hin.
  destruct (Inv_not_busy _ HI Hb) as [_ Hnone].
  rewrite onPress_action, withRun_started by exact Hin.
  repeat split; assumption || reflexivity.
Qed.

(** No event removes or changes an output record. *)
Lemma step_keeps_outputs (s : State) (ev : Event) :
  Inv s -> exists new, outputs (step s ev) = new ++ outputs s.
Proof.
  intros HI. destruct ev as [iso | b | i o | i o | i o | i session | i e].
  - now exists [].
  - destruct (disabled b s) eqn:Hd; [cbn [step]; rewrite Hd; now exists []|].
    destruct b as [|p].
    + now exists [].
    + destruct (press_action _ _ HI Hd) as (_ & _ & ->). now exists [].
  - destruct (pending s !! i) as [t|] eqn:Hi; [|cbn [step]; rewrite Hi; now exists []].
    destruct t; try (cbn [step]; rewrite Hi; now exists []).
    rewrite (settle_pick _ _ _ o HI Hi). exists [].
    destruct o as [uri|e]; [reflexivity | now destruct (isCancel e)].
  - destruct (pending s !! i) as [t|] eqn:Hi; [|cbn [step]; rewrite Hi; now exists []].
    destruct t; try (cbn [step]; rewrite Hi; now exists []).
    destruct (settle_exists _ _ _ _ o HI Hi) as (p & input & _ & _ & _ & -> & _).
    destruct o as [[|]|e].
    + rewrite run_afterExists_true. now exists [outputRecord p (stampOf (clock s))].
    + now exists [].
    + now exists [].
  - destruct (pending s !! i) as [t|] eqn:Hi; [|cbn [step]; rewrite Hi; now exists []].
    destruct t; try (cbn [step]; rewrite Hi; now exists []).
    destruct (settle_mkdir _ _ _ _ o HI Hi) as (p & input & _ & _ & _ & -> & _).
    destruct o as [[]|e].
    + rewrite run_afterMkdir_fulfilled. now exists [outputRecord p (stampOf (clock s))].
    + now exists [].
  - destruct (pending s !! i) as [t|] eqn:Hi; [|cbn [step]; rewrite Hi; now exists []].
    destruct t; try (cbn [step]; rewrite Hi; now exists []).
    destruct (settle_ffmpeg _ _ _ _ HI Hi)
      as (p & input & iso & _ & _ & _ & _ & -> & _).
    now exists [].
  - destruct (pending s !! i) as [t|] eqn:Hi; [|cbn [step]; rewrite Hi; now exists []].
    destruct t; try (cbn [step]; rewrite Hi; now exists []).
    destruct (settle_ffmpeg _ _ _ _ HI Hi)
      as (p & input & iso & _ & _ & _ & _ & _ & -> & _).
    now exists [].
Qed.

Lemma inFlight_le_runs (l : list (Async unit)) :
  length (List.filter awaitsFFmpeg l) <= length (List.filter isRun l).
Proof.
  induction l as [|t l IH]; [reflexivity|].
  cbn [List.filter]. destruct t; cbn [awaitsFFmpeg isRun length]; lia.
Qed.

(** *** The run controller *)

(** C1: in every state the screen can reach, at most one invocation of the
    execution adapter is in flight, and none while busy is null; and
    touching an action button while the run state is Running (busy is not
    null) leaves the whole state as it is: busy, the outputs, the suspended
    handlers and the platform calls made, so the adapter is not invoked a
    second time. *)
Theorem one_run_at_a_time (evs : list Event) :
  let s := exec evs in
  inFlight s <= 1 /\
  (busy s = None -> inFlight s = 0) /\
  forall p, busy s <> None -> step s (Press (ActionButton p)) = s.
Proof.
  intros s. pose proof (exec_Inv evs) as HI. fold s in HI.
  pose proof (inFlight_le_runs (pending s)) as Hle. fold (inFlight s) in Hle.
  split; [|split].
  - destruct HI as [_ HM].
    destruct (List.filter isRun (pending s)) as [|t [|]]; cbn [length] in Hle;
      first [lia | contradiction].
  - intros Hb. apply (Inv_busy_iff _ HI) in Hb. rewrite Hb in Hle.
    cbn [length] in Hle. lia.
  - intros p Hb. cbn [step disabled].
    destruct HI as [_ HM].
    destruct (List.filter isRun (pending s)) as [|t [|]]; try contradiction.
    destruct HM as (q & Hq & _). rewrite Hq, label_truthy, orb_true_r. reflexivity.
Qed.

(** C7: when withRun is called by a render in which inputUri is null, it
    shows the alert asking to pick a video and does nothing else: busy, the
    output list and the input stay as they are, no handler is suspended and
    no platform call is made, so neither ensureOutDir, nor the command
    builder, nor runFFmpeg runs.  The same holds for the four action
    handlers. *)
Theorem withRun_without_input (s : State) (l : string) (buildCmd : Async string) :
  inputUri s = None ->
  let said := ("No video", "Please pick a video first.") in
  run (withRun (inputUri s) l buildCmd) s = with_alerts (said :: alerts s) s /\
  (forall p, run (onPress (ActionButton p) s) s = with_alerts (said :: alerts s) s) /\
  let s' := with_alerts (said :: alerts s) s in
  busy s' = busy s /\ outputs s' = outputs s /\ inputUri s' = None /\
  pending s' = pending s /\ calls s' = calls s.
Proof.
  intros H said. split; [|split].
  - rewrite H. reflexivity.
  - intros p. rewrite onPress_action, H. reflexivity.
  - cbn. auto.
Qed.

(** C5: in every reachable state, when the adapter resolves a run with
    success = false the controller leaves Running (busy becomes null), the
    alert shows the first 2000 characters of the log and no more, and the
    outputs are as before, the record of this run among them; when the
    call of the adapter throws, or RNFS.exists or RNFS.mkdir rejects, busy
    becomes null, the alert shows the error text and the outputs are as
    before, the record of the run among them if it had been appended. *)
Theorem failing_run_leaves_running (evs : list Event) (i : nat) :
  let s := exec evs in
  (forall cmd k session,
     pending s !! i = Some (ExecuteAsync cmd k) -> isSuccess session = false ->
     let s' := step s (ExecuteCompleted i session) in
     let shown := slice 0 2000 (logsOf session) in
     exists p input iso,
       busy s = Some (label p) /\ busy s' = None /\
       alerts s' = (label p +:+ " failed", shown) :: alerts s /\
       len shown <= 2000 /\ startsWith (logsOf session) shown = true /\
       outputs s' = outputs s /\
       cmd = buildCommand p (interpolate input) (outputPath p (stampOf iso)) /\
       In (outputRecord p (stampOf iso)) (outputs s')) /\
  (forall cmd k e,
     pending s !! i = Some (ExecuteAsync cmd k) ->
     let s' := step s (ExecuteThrew i e) in
     exists p input iso,
       busy s = Some (label p) /\ busy s' = None /\
       alerts s' = (label p +:+ " error", errorText e) :: alerts s /\
       outputs s' = outputs s /\
       cmd = buildCommand p (interpolate input) (outputPath p (stampOf iso)) /\
       In (outputRecord p (stampOf iso)) (outputs s')) /\
  (forall path k e,
     pending s !! i = Some (RNFSExists path k) ->
     let s' := step s (ExistsSettled i (Rejected e)) in
     exists p,
       busy s = Some (label p) /\ busy s' = None /\
       alerts s' = (label p +:+ " error", errorText e) :: alerts s /\
       outputs s' = outputs s) /\
  (forall path k e,
     pending s !! i = Some (RNFSMkdir path k) ->
     let s' := step s (MkdirSettled i (Rejected e)) in
     exists p,
       busy s = Some (label p) /\ busy s' = None /\
       alerts s' = (label p +:+ " error", errorText e) :: alerts s /\
       outputs s' = outputs s).
Proof.
  intros s. pose proof (exec_Inv evs) as HI. fold s in HI. split; [|split; [|split]].
  - intros cmd k session Hi Hfail s' shown. subst s'.
    destruct (settle_ffmpeg _ _ _ _ HI Hi)
      as (p & input & iso & Hb & _ & Hcmd & Hrec & -> & _).
    exists p, input, iso. unfold finished. rewrite Hfail. cbn.
    destruct (slice_prefix 2000 (logsOf session)) as [Hlen Hpre].
    repeat split; try assumption.
    fold shown in Hpre. rewrite Hpre at 1. apply startsWith_append.
  - intros cmd k e Hi s'. subst s'.
    destruct (settle_ffmpeg _ _ _ _ HI Hi)
      as (p & input & iso & Hb & _ & Hcmd & Hrec & _ & -> & _).
    exists p, input, iso. now repeat split.
  - intros path k e Hi s'. subst s'.
    destruct (settle_exists _ _ _ _ (Rejected e) HI Hi) as (p & input & Hb & _ & _ & -> & _).
    exists p. rewrite run_afterExists_rejected. now repeat split.
  - intros path k e Hi s'. subst s'.
    destruct (settle_mkdir _ _ _ _ (Rejected e) HI Hi) as (p & input & Hb & _ & _ & -> & _).
    exists p. rewrite run_afterMkdir_rejected. now repeat split.
Qed.

(** C6 (amended): in every reachable state, the output record of a run
    (the computed output path; for Split the pattern with its placeholder
    replaced) is put in front of the output list when ensureOutDir has
    resolved and the command is built, in the same step that invokes the
    adapter and before the adapter resolves, not after confirmed success;
    neither the press nor a rejection of ensureOutDir appends anything; and
    no event removes or changes a record, so the record is still there
    when the adapter later reports failure. *)
Theorem record_appended_when_command_is_built (evs : list Event) (i : nat) :
  let s := exec evs in
  (forall path k,
     pending s !! i = Some (RNFSExists path k) ->
     let s' := step s (ExistsSettled i (Fulfilled true)) in
     exists p input,
       busy s = Some (label p) /\ busy s' = Some (label p) /\
       outputs s' = outputRecord p (stampOf (clock s)) :: outputs s /\
       calls s' =
         CallExecuteAsync
           (buildCommand p (interpolate input) (outputPath p (stampOf (clock s))))
         :: calls s /\
       inFlight s' = 1) /\
  (forall path k,
     pending s !! i = Some (RNFSMkdir path k) ->
     let s' := step s (MkdirSettled i (Fulfilled tt)) in
     exists p input,
       busy s = Some (label p) /\ busy s' = Some (label p) /\
       outputs s' = outputRecord p (stampOf (clock s)) :: outputs s /\
       calls s' =
         CallExecuteAsync
           (buildCommand p (interpolate input) (outputPath p (stampOf (clock s))))
         :: calls s /\
       inFlight s' = 1) /\
  (forall b, outputs (step s (Press b)) = outputs s) /\
  (forall e, outputs (step s (ExistsSettled i (Rejected e))) = outputs s) /\
  (forall e, outputs (step s (MkdirSettled i (Rejected e))) = outputs s) /\
  (forall ev, exists new, outputs (step s ev) = new ++ outputs s).
Proof.
  intros s. pose proof (exec_Inv evs) as HI. fold s in HI.
  assert (Hone : forall p cmd l,
             List.filter isRun l = [] ->
             length (List.filter awaitsFFmpeg (l ++ [awaitingFFmpeg p cmd])) = 1).
  { intros p cmd l Hl. rewrite List.filter_app, length_app.
    pose proof (inFlight_le_runs l) as Hle. rewrite Hl in Hle.
    cbn in *. lia. }
  split; [|split; [|split; [|split; [|split]]]].
  - intros path k Hi s'. subst s'.
    destruct (settle_exists _ _ _ _ (Fulfilled true) HI Hi)
      as (p & input & Hb & _ & _ & -> & HN).
    exists p, input. rewrite run_afterExists_true.
    repeat split; try assumption. unfold inFlight. now apply Hone.
  - intros path k Hi s'. subst s'.
    destruct (settle_mkdir _ _ _ _ (Fulfilled tt) HI Hi)
      as (p & input & Hb & _ & _ & -> & HN).
    exists p, input. rewrite run_afterMkdir_fulfilled.
    repeat split; try assumption. unfold inFlight. now apply Hone.
  - intros b. destruct (disabled b s) eqn:Hd; [cbn [step]; now rewrite Hd|].
    destruct b as [|p]; [reflexivity|].
    now destruct (press_action _ _ HI Hd) as (_ & _ & ->).
  - intros e. destruct (pending s !! i) as [t|] eqn:Hi; [|cbn [step]; now rewrite Hi].
    destruct t; try (cbn [step]; now rewrite Hi).
    now destruct (settle_exists _ _ _ _ (Rejected e) HI Hi) as (p & input & _ & _ & _ & -> & _).
  - intros e. destruct (pending s !! i) as [t|] eqn:Hi; [|cbn [step]; now rewrite Hi].
    destruct t; try (cbn [step]; now rewrite Hi).
    now destruct (settle_mkdir _ _ _ _ (Rejected e) HI Hi) as (p & input & _ & _ & _ & -> & _).
  - intros ev. now apply step_keeps_outputs.
Qed.

(** *** The Split action *)

Lemma label_inj (p q : Preset) : label p = label q -> p = q.
Proof. destruct p, q; intros H; try reflexivity; discriminate. Qed.

Lemma splitPattern_has_placeholder (stamp : string) :
  includes (splitPattern stamp) "%03d" = true.
Proof. unfold splitPattern. find_option. Qed.

(** What a Split run does once ensureOutDir has resolved, whether the
    directory existed or has just been made. *)
Lemma split_run_builds (evs : list Event) (i : nat) (ev : Event) :
  let s := exec evs in
  busy s = Some (label Split) ->
  (exists path k, pending s !! i = Some (RNFSExists path k) /\
                  ev = ExistsSettled i (Fulfilled true)) \/
  (exists path k, pending s !! i = Some (RNFSMkdir path k) /\
                  ev = MkdirSettled i (Fulfilled tt)) ->
  exists input,
    calls (step s ev) =
      CallExecuteAsync
        (buildSplitCommand (interpolate input) (splitPattern (stampOf (clock s))))
      :: calls s /\
    outputs (step s ev) =
      replace "%03d" "001.." (splitPattern (stampOf (clock s))) :: outputs s.
Proof.
  intros s Hb H. pose proof (exec_Inv evs) as HI. fold s in HI.
  destruct H as [(path & k & Hi & ->) | (path & k & Hi & ->)].
  - destruct (settle_exists _ _ _ _ (Fulfilled true) HI Hi)
      as (p & input & Hp & _ & _ & -> & _).
    rewrite Hb in Hp. injection Hp as Hp. apply (label_inj Split p) in Hp as <-.
    exists input. now rewrite run_afterExists_true.
  - destruct (settle_mkdir _ _ _ _ (Fulfilled tt) HI Hi)
      as (p & input & Hp & _ & _ & -> & _).
    rewrite Hb in Hp. injection Hp as Hp. apply (label_inj Split p) in Hp as <-.
    exists input. now rewrite run_afterMkdir_fulfilled.
Qed.

(** C4: for every input reference and output pattern the string returned
    by buildSplitCommand contains the segment duration -segment_time 60;
    the pattern of the Split action contains the zero-padded sequence
    placeholder %03d, for every time stamp; and that pattern is what a Split
    run hands to buildSplitCommand. *)
Theorem split_segment_time_and_pattern :
  (forall input pattern,
     includes (buildSplitCommand input pattern) " -segment_time 60 " = true) /\
  (forall stamp, includes (splitPattern stamp) "%03d" = true) /\
  (forall evs i path k,
     let s := exec evs in
     busy s = Some (label Split) ->
     pending s !! i = Some (RNFSExists path k) ->
     exists input,
       calls (step s (ExistsSettled i (Fulfilled true))) =
       CallExecuteAsync
         (buildSplitCommand (interpolate input) (splitPattern (stampOf (clock s))))
       :: calls s).
Proof.
  split; [|split].
  - intros input pattern. unfold buildSplitCommand. find_option.
  - apply splitPattern_has_placeholder.
  - intros evs i path k s Hb Hi.
    destruct (split_run_builds evs i (ExistsSettled i (Fulfilled true)) Hb)
      as (input & Hc & _); [left; eauto|].
    now exists input.
Qed.

(** C10: in a Split run the output record put on the list is the pattern
    with its first %03d replaced by the text 001.. and so never equals the
    pattern handed to buildSplitCommand, which keeps the placeholder; when
    neither the documents directory nor the clock text contains a percent
    sign, the replaced occurrence is the placeholder itself. *)
Theorem split_record_is_not_the_pattern :
  (forall evs i ev,
     let s := exec evs in
     let pattern := splitPattern (stampOf (clock s)) in
     busy s = Some (label Split) ->
     (exists path k, pending s !! i = Some (RNFSExists path k) /\
                     ev = ExistsSettled i (Fulfilled true)) \/
     (exists path k, pending s !! i = Some (RNFSMkdir path k) /\
                     ev = MkdirSettled i (Fulfilled tt)) ->
     exists input,
       calls (step s ev) =
         CallExecuteAsync (buildSplitCommand (interpolate input) pattern) :: calls s /\
       outputs (step s ev) = replace "%03d" "001.." pattern :: outputs s /\
       replace "%03d" "001.." pattern <> pattern) /\
  (forall stamp,
     outputRecord Split stamp = replace "%03d" "001.." (outputPath Split stamp) /\
     outputRecord Split stamp <> outputPath Split stamp) /\
  (forall iso,
     count_char "%" DocumentDirectoryPath = 0 -> count_char "%" iso = 0 ->
     outputRecord Split (stampOf iso) =
     outDir +:+ "/split_" +:+ stampOf iso +:+ "_001...mp4").
Proof.
  assert (Hne : forall stamp,
             replace "%03d" "001.." (splitPattern stamp) <> splitPattern stamp).
  { intros stamp. apply replace_changes; [discriminate|].
    apply splitPattern_has_placeholder. }
  split; [|split].
  - intros evs i ev s pattern Hb H.
    destruct (split_run_builds evs i ev Hb H) as (input & Hc & Ho).
    exists input. repeat split; try assumption. apply Hne.
  - intros stamp. split; [reflexivity | apply Hne].
  - intros iso Hd Hi. cbn [outputRecord]. unfold splitPattern, outDir.
    rewrite !append_assoc.
    rewrite replace_skip by exact Hd.
    rewrite (replace_skip _ _ _ "/outputs") by reflexivity.
    rewrite (replace_skip _ _ _ "/split_") by reflexivity.
    rewrite replace_skip
      by (unfold stampOf; rewrite count_char_replace_class; [exact Hi | reflexivity ..]).
    reflexivity.
Qed.

(** *** The output directory *)

Lemma run_ensureOutDir (fs : FileSystem) :
  runOnFileSystem ensureOutDir fs =
  if fsExists fs outDir
  then Some (Fulfilled outDir, fs, [CallExists outDir])
  else match fsMkdir fs outDir with
       | (Fulfilled _, fs') =>
           Some (Fulfilled outDir, fs', [CallExists outDir; CallMkdir outDir])
       | (Rejected e, fs') =>
           Some (Rejected e, fs', [CallExists outDir; CallMkdir outDir])
       end.
Proof.
  unfold ensureOutDir. cbn. destruct (fsExists fs outDir) eqn:E; cbn; [reflexivity|].
  destruct (fsMkdir fs outDir) as [[[]|e] fs']; reflexivity.
Qed.

(** C8: on a file system where the output directory exists or can be
    created, calling ensureOutDir twice in succession produces no error;
    the second call only asks whether the directory exists and leaves the
    file system as the first call left it, with the output directory once
    among its directories and nothing else added. *)
Theorem ensureOutDir_twice (fs : FileSystem) :
  outDir ∈ directories fs \/ outDir ∉ refused fs ->
  exists fs1 calls1,
    runOnFileSystem ensureOutDir fs = Some (Fulfilled outDir, fs1, calls1) /\
    runOnFileSystem ensureOutDir fs1 =
      Some (Fulfilled outDir, fs1, [CallExists outDir]) /\
    runOnFileSystem (ensureOutDir;; ensureOutDir) fs =
      Some (Fulfilled outDir, fs1, calls1 ++ [CallExists outDir]) /\
    directories fs1 = {[outDir]} ∪ directories fs /\
    size (filter (fun d => d = outDir) (directories fs1)) = 1.
Proof.
  intros H.
  assert (Hsize : forall X : gset string,
             outDir ∈ X -> size (filter (fun d => d = outDir) X) = 1).
  { intros X HX.
    replace (filter (fun d => d = outDir) X) with ({[outDir]} : gset string)
      by (apply set_eq; intros d; rewrite elem_of_filter, elem_of_singleton;
          split; [intros ->; now split | now intros [-> _]]).
    apply size_singleton. }
  destruct (decide (outDir ∈ directories fs)) as [Hin|Hnin].
  - exists fs, [CallExists outDir].
    assert (E : fsExists fs outDir = true) by now apply bool_decide_eq_true.
    repeat split.
    + rewrite run_ensureOutDir, E. reflexivity.
    + rewrite run_ensureOutDir, E. reflexivity.
    + unfold ensureOutDir. cbn. rewrite E. cbn. rewrite E. reflexivity.
    + apply set_eq. intros d. rewrite elem_of_union, elem_of_singleton.
      split; [now right | now intros [->|]].
    + now apply Hsize.
  - destruct H as [Hin|Hok]; [contradiction|].
    set (fs1 := {| directories := {[outDir]} ∪ directories fs; refused := refused fs |}).
    exists fs1, [CallExists outDir; CallMkdir outDir].
    assert (E : fsExists fs outDir = false) by now apply bool_decide_eq_false.
    assert (M : fsMkdir fs outDir = (Fulfilled tt, fs1)).
    { unfold fsMkdir. rewrite E.
      now rewrite (bool_decide_eq_false_2 _ Hok). }
    assert (H1 : outDir ∈ directories fs1)
      by (cbn; apply elem_of_union; left; now apply elem_of_singleton).
    assert (E1 : fsExists fs1 outDir = true) by now apply bool_decide_eq_true.
    repeat split.
    + rewrite run_ensureOutDir, E, M. reflexivity.
    + rewrite run_ensureOutDir, E1. reflexivity.
    + unfold ensureOutDir. cbn. rewrite E. cbn. rewrite M. cbn. rewrite E1. reflexivity.
    + now apply Hsize.
Qed.

(** ** Further properties of the screen *)

(** The busy banner of the render: [{busy && (...)}]. *)
Definition showsBusy (s : State) : bool := truthy (busy s).

(** The settlements a suspended handler of a run still waits for, at most:
    [RNFS.exists], [RNFS.mkdir] and the adapter. *)
Definition stage (t : Async unit) : nat :=
  match t with
  | RNFSExists _ _ => 3
  | RNFSMkdir _ _ => 2
  | ExecuteAsync _ _ => 1
  | _ => 0
  end.

Definition remaining (s : State) : nat := list_sum (map stage (pending s)).

Definition isExecute (c : Call) : bool :=
  match c with
  | CallExecuteAsync _ => true
  | _ => false
  end.

(** The adapter invocations made so far. *)
Definition invocations (s : State) : nat := length (List.filter isExecute (calls s)).

(** A platform call the screen is expected to make: the picker, the two
    file-system calls on the output directory, and the adapter on a command
    of one of the four builders, reading a non-empty input reference and
    writing to the path of its preset. *)
Definition Expected (c : Call) : Prop :=
  match c with
  | CallPickSingle => True
  | CallExists path => path = outDir
  | CallMkdir path => path = outDir
  | CallExecuteAsync cmd =>
      exists p u iso,
        u <> "" /\ cmd = buildCommand p u (outputPath p (stampOf iso))
  end.

(** *** The time stamp *)

Lemma stampOf_cons (c : ascii) (r : string) :
  stampOf (String c r) = String (if isColonOrDot c then "-"%char else c) (stampOf r).
Proof. unfold stampOf. cbn [replace_class]. now destruct (isColonOrDot c). Qed.

(** X1: the stamp of nowStamp has no colon and no period, is as long as the
    ISO text it is made from, keeps every other character where it was (so
    the count of any character that is neither of the three is unchanged),
    and stamping a stamp changes nothing. *)
Theorem stamp_is_file_name_safe (iso : string) :
  count_char ":" (stampOf iso) = 0 /\
  count_char "." (stampOf iso) = 0 /\
  len (stampOf iso) = len iso /\
  stampOf (stampOf iso) = stampOf iso /\
  (forall c, isColonOrDot c = false -> c <> "-"%char ->
             count_char c (stampOf iso) = count_char c iso).
Proof.
  induction iso as [|c r (IH1 & IH2 & IH3 & IH4 & IH5)]; [repeat split|].
  rewrite !stampOf_cons.
  assert (Hsafe : isColonOrDot (if isColonOrDot c then "-"%char else c) = false)
    by (destruct (isColonOrDot c) eqn:E; [reflexivity | exact E]).
  rewrite Hsafe, IH4. cbn [count_char].
  change (len (String ?a ?x)) with (S (len x)). rewrite IH1, IH2, IH3.
  repeat split.
  - apply orb_false_iff in Hsafe as [Hsafe _]. now rewrite Hsafe.
  - apply orb_false_iff in Hsafe as [_ Hsafe]. now rewrite Hsafe.
  - intros d Hd Hne. rewrite IH5 by assumption. f_equal.
    destruct (isColonOrDot c) eqn:E; [|reflexivity].
    unfold isColonOrDot in E, Hd.
    destruct (Ascii.eqb_spec "-" d) as [Heq|_]; [congruence|].
    destruct (Ascii.eqb_spec c d) as [Heq|_]; [congruence | reflexivity].
Qed.

(** *** The log shown after a failure *)

Lemma str_take_all (n : nat) (s : string) : len s <= n -> str_take n s = s.
Proof.
  unfold len. revert s. induction n as [|n IH]; intros [|x s] H; simpl in *;
    try reflexivity; try lia.
  f_equal. apply IH. lia.
Qed.

Lemma len_str_take_full (n : nat) (s : string) : n <= len s -> len (str_take n s) = n.
Proof.
  unfold len. revert s. induction n as [|n IH]; intros [|x s] H; simpl in *;
    try reflexivity; try lia.
  f_equal. apply IH. lia.
Qed.

Lemma slice_from_start (n : nat) (s : string) : slice 0 n s = str_take n s.
Proof. unfold slice. rewrite Nat.sub_0_r. now destruct s. Qed.

(** X8: what the failure alert shows of the log: nothing when the session
    has no log text (getAllLogsAsString is missing or yields nothing), the
    whole log when it has at most 2000 characters, and exactly its first
    2000 characters when it is longer. *)
Theorem shown_log_bounds (session : Session) :
  let all := logsOf session in
  let shown := slice 0 2000 all in
  (truthy (allLogsAsString session) = false -> shown = "") /\
  (forall text, allLogsAsString session = Some text -> all = text) /\
  (len all <= 2000 -> shown = all) /\
  (2000 < len all ->
   len shown = 2000 /\ exists cut, cut <> "" /\ all = shown +:+ cut).
Proof.
  intros all shown. subst shown. rewrite slice_from_start.
  split; [|split; [|split]].
  - intros H. subst all. unfold logsOf. now rewrite H.
  - intros text H. subst all. unfold logsOf. rewrite H. cbn.
    destruct (String.eqb_spec text "") as [->|]; reflexivity.
  - apply str_take_all.
  - intros H. split; [apply len_str_take_full; lia|].
    exists (str_drop 2000 all). split.
    + intros Hnil. pose proof (f_equal len (str_take_drop 2000 all)) as Hlen.
      rewrite len_append, Hnil, len_str_take_full in Hlen by lia.
      change (len "") with 0 in Hlen. lia.
    + now rewrite str_take_drop.
Qed.

(** *** Output paths *)

Lemma append_inj_r (a b c : string) : a +:+ c = b +:+ c -> a = b.
Proof.
  assert (Hlen : forall x a', len (String x a' +:+ c) = S (len a' + len c)).
  { intros x a'. rewrite append_cons. change (len (String x ?s)) with (S (len s)).
    now rewrite len_append. }
  revert b. induction a as [|x a IH]; intros [|y b] H.
  - reflexivity.
  - apply (f_equal len) in H. rewrite Hlen in H.
    change ("" +:+ c) with c in H. lia.
  - apply (f_equal len) in H. rewrite Hlen in H.
    change ("" +:+ c) with c in H. lia.
  - rewrite !append_cons in H. injection H as -> H. f_equal. now apply IH.
Qed.

(** X9: the output paths of two runs coincide only when the runs are of the
    same preset and have the same time stamp: files of different presets or
    of different stamps never overwrite each other. *)
Theorem output_paths_collide_only_on_same_stamp (p q : Preset) (s1 s2 : string) :
  outputPath p s1 = outputPath q s2 -> p = q /\ s1 = s2.
Proof.
  intros H. unfold outputPath, splitPattern in H.
  destruct p, q; apply String.app_inj in H;
    rewrite !append_cons in H; injection H as H;
    rewrite ?append_cons in H; try discriminate H;
    (split; [reflexivity|]);
    repeat (rewrite append_cons in H; injection H as H);
    change ("" +:+ ?x) with x in H; now apply append_inj_r in H.
Qed.

(** *** What one event adds to the outputs and to the platform calls *)

Lemma step_effect (s : State) (ev : Event) :
  Inv s ->
  (outputs (step s ev) = outputs s /\
   (calls (step s ev) = calls s \/
    calls (step s ev) = CallPickSingle :: calls s \/
    calls (step s ev) = CallExists outDir :: calls s \/
    calls (step s ev) = CallMkdir outDir :: calls s)) \/
  (exists p input,
     truthy input = true /\ busy s = Some (label p) /\
     outputs (step s ev) = outputRecord p (stampOf (clock s)) :: outputs s /\
     calls (step s ev) =
     CallExecuteAsync
       (buildCommand p (interpolate input) (outputPath p (stampOf (clock s))))
     :: calls s).
Proof.
  intros HI.
  assert (Hsame : forall s', s' = s ->
            outputs s' = outputs s /\
            (calls s' = calls s \/ calls s' = CallPickSingle :: calls s \/
             calls s' = CallExists outDir :: calls s \/
             calls s' = CallMkdir outDir :: calls s))
    by (intros s' ->; auto).
  destruct ev as [iso | b | i o | i o | i o | i session | i e].
  - left. auto.
  - destruct (disabled b s) eqn:Hd; [left; apply Hsame; cbn [step]; now rewrite Hd|].
    destruct b as [|p].
    + left. cbn [step]. rewrite Hd. cbn [onPress]. rewrite run_onPick. auto.
    + destruct (press_action _ _ HI Hd) as (_ & _ & ->). left. auto.
  - left. destruct (pending s !! i) as [t|] eqn:Hi;
      [|apply Hsame; cbn [step]; now rewrite Hi].
    destruct t; try (apply Hsame; cbn [step]; now rewrite Hi).
    rewrite (settle_pick _ _ _ o HI Hi).
    destruct o as [uri|e]; [auto | destruct (isCancel e); auto].
  - destruct (pending s !! i) as [t|] eqn:Hi;
      [|left; apply Hsame; cbn [step]; now rewrite Hi].
    destruct t; try (left; apply Hsame; cbn [step]; now rewrite Hi).
    destruct (settle_exists _ _ _ _ o HI Hi) as (p & input & Hb & Hin & _ & -> & _).
    destruct o as [[|]|e].
    + right. exists p, input. rewrite run_afterExists_true. auto.
    + left. rewrite run_afterExists_false. auto.
    + left. rewrite run_afterExists_rejected. auto.
  - destruct (pending s !! i) as [t|] eqn:Hi;
      [|left; apply Hsame; cbn [step]; now rewrite Hi].
    destruct t; try (left; apply Hsame; cbn [step]; now rewrite Hi).
    destruct (settle_mkdir _ _ _ _ o HI Hi) as (p & input & Hb & Hin & _ & -> & _).
    destruct o as [[]|e].
    + right. exists p, input. rewrite run_afterMkdir_fulfilled. auto.
    + left. rewrite run_afterMkdir_rejected. auto.
  - left. destruct (pending s !! i) as [t|] eqn:Hi;
      [|apply Hsame; cbn [step]; now rewrite Hi].
    destruct t; try (apply Hsame; cbn [step]; now rewrite Hi).
    destruct (settle_ffmpeg _ _ _ _ HI Hi)
      as (p & input & iso & _ & _ & _ & _ & -> & _). auto.
  - left. destruct (pending s !! i) as [t|] eqn:Hi;
      [|apply Hsame; cbn [step]; now rewrite Hi].
    destruct t; try (apply Hsame; cbn [step]; now rewrite Hi).
    destruct (settle_ffmpeg _ _ _ _ HI Hi)
      as (p & input & iso & _ & _ & _ & _ & _ & -> & _). auto.
Qed.

Lemma truthy_interpolate (input : option string) :
  truthy input = true -> interpolate input <> "" /\ input = Some (interpolate input).
Proof.
  destruct input as [u|]; [|discriminate]. cbn. intros H. split; [|reflexivity].
  intros ->. discriminate.
Qed.

(** An invariant of the screen holds after every trace when it holds at the
    start and every event keeps it, in states that satisfy [Inv]. *)
Lemma exec_invariant (P : State -> Prop) :
  P initial ->
  (forall s ev, Inv s -> P s -> P (step s ev)) ->
  forall evs, P (exec evs).
Proof.
  intros H0 Hstep evs. unfold exec.
  assert (H : Inv initial /\ P initial) by (split; [apply initial_Inv | exact H0]).
  revert H. generalize initial. induction evs as [|ev evs IH]; intros s [HI HP].
  - exact HP.
  - apply IH. split; [now apply step_Inv | now apply Hstep].
Qed.

(** X6: in every state the screen can reach, the output list has exactly
    one record per invocation of the execution adapter made so far: a record
    is never added without the adapter being invoked, nor the adapter
    invoked without a record. *)
Theorem one_record_per_invocation (evs : list Event) :
  length (outputs (exec evs)) = invocations (exec evs).
Proof.
  apply exec_invariant with (P := fun s => length (outputs s) = invocations s).
  - reflexivity.
  - intros s ev HI HP. unfold invocations in *.
    destruct (step_effect s ev HI) as [(-> & [-> | [-> | [-> | ->]]]) | H];
      try exact HP.
    destruct H as (p & input & _ & _ & -> & ->). cbn. now rewrite HP.
Qed.

(** X12: in every state the screen can reach, every platform call made so
    far is an expected one: the file-system calls name the output directory
    and nothing else, and every command handed to the adapter comes from
    one of the four builders, with a non-empty input reference and the
    output path of its preset under the output directory. *)
Theorem only_expected_calls (evs : list Event) :
  Forall Expected (calls (exec evs)).
Proof.
  apply exec_invariant with (P := fun s => Forall Expected (calls s)).
  - constructor.
  - intros s ev HI HP.
    destruct (step_effect s ev HI) as [(_ & [-> | [-> | [-> | ->]]]) | H];
      try exact HP; try (constructor; [reflexivity || exact I | exact HP]).
    destruct H as (p & input & Hin & _ & _ & ->).
    constructor; [|exact HP].
    exists p, (interpolate input), (clock s).
    split; [now apply truthy_interpolate | reflexivity].
Qed.

(** *** The busy banner and the buttons *)

Lemma no_run_iff (l : list (Async unit)) :
  List.filter isRun l = [] <-> forall t, In t l -> isRun t = false.
Proof.
  split.
  - intros H t Ht. destruct (isRun t) eqn:E; [|reflexivity].
    assert (Hin : In t (List.filter isRun l)) by (apply List.filter_In; now split).
    rewrite H in Hin. destruct Hin.
  - intros H. induction l as [|t l IH]; [reflexivity|].
    cbn [List.filter]. rewrite (H t) by now left.
    apply IH. intros t' Ht'. apply H. now right.
Qed.

(** X7: in every state the screen can reach, the busy banner is shown
    exactly while the handler of a run is suspended, and it then carries the
    label of one of the four presets; an action button can be touched
    exactly when a video is selected and no run is suspended, so the buttons
    come back as soon as a run has ended, however it ended. *)
Theorem busy_shown_exactly_while_running (evs : list Event) :
  let s := exec evs in
  (showsBusy s = true <-> exists t, In t (pending s) /\ isRun t = true) /\
  (showsBusy s = true -> exists p, busy s = Some (label p)) /\
  (forall p, disabled (ActionButton p) s = false <->
             truthy (inputUri s) = true /\
             forall t, In t (pending s) -> isRun t = false).
Proof.
  intros s. pose proof (exec_Inv evs) as HI. fold s in HI.
  pose proof (no_run_iff (pending s)) as Hno.
  unfold showsBusy. destruct HI as [_ HM].
  destruct (List.filter isRun (pending s)) as [|t [|]] eqn:E; [| |contradiction].
  - rewrite HM. cbn [truthy disabled]. split; [|split].
    + split; [discriminate|]. intros (t & Ht & Hr).
      rewrite (proj1 Hno eq_refl t Ht) in Hr. discriminate.
    + discriminate.
    + intros p. rewrite HM, orb_false_r, negb_false_iff. cbn [truthy].
      split; [intros H; split; [exact H | now apply Hno] | now intros [H _]].
  - destruct HM as (p & Hb & Hr). rewrite Hb, label_truthy.
    assert (Hin : In t (pending s) /\ isRun t = true).
    { apply List.filter_In. rewrite E. now left. }
    split; [|split].
    + split; [intros _; now exists t | reflexivity].
    + intros _. now exists p.
    + intros q. cbn [disabled]. rewrite Hb, label_truthy, orb_true_r.
      split; [discriminate|]. intros [_ H].
      destruct Hin as [Hin Hr']. rewrite (H t Hin) in Hr'. discriminate.
Qed.

(** *** How far a run is from its end *)

Lemma list_sum_stage_cons (t : Async unit) (l : list (Async unit)) :
  list_sum (map stage (t :: l)) = stage t + list_sum (map stage l).
Proof. reflexivity. Qed.

Lemma stage_no_run (l : list (Async unit)) :
  List.filter isRun l = [] -> list_sum (map stage l) = 0.
Proof.
  induction l as [|t l IH]; [reflexivity|].
  rewrite list_sum_stage_cons. cbn [List.filter].
  destruct (isRun t) eqn:E; [discriminate|].
  intros H. rewrite (IH H). now destruct t.
Qed.

Lemma list_sum_stage_app (l l' : list (Async unit)) :
  list_sum (map stage (l ++ l')) = list_sum (map stage l) + list_sum (map stage l').
Proof. now rewrite map_app, list_sum_app. Qed.

Lemma remaining_run (s : State) (i : nat) (t : Async unit) :
  Inv s -> pending s !! i = Some t -> isRun t = true ->
  remaining s = stage t.
Proof.
  intros HI Hi Ht.
  destruct (Inv_take_run _ _ _ HI Hi Ht) as (_ & _ & HN).
  destruct (lookup_split _ _ _ Hi) as (l1 & l2 & Hl & Hd).
  rewrite Hd in HN. apply stage_no_run in HN. rewrite list_sum_stage_app in HN.
  unfold remaining. rewrite Hl, list_sum_stage_app, list_sum_stage_cons. lia.
Qed.

(** X10: a run needs at most three settlements to end.  In every reachable
    state the suspended handlers wait for at most three settlements, and
    for none exactly when busy is null; a touch that starts a run sets the
    count to three; whatever RNFS.exists answers brings it below three,
    whatever RNFS.mkdir answers brings it below two, and the completion or
    the throw of the adapter brings it to zero. *)
Theorem run_ends_within_three_settlements (evs : list Event) (i : nat) :
  let s := exec evs in
  remaining s <= 3 /\
  (remaining s = 0 <-> busy s = None) /\
  (forall p, disabled (ActionButton p) s = false ->
             remaining (step s (Press (ActionButton p))) = 3) /\
  (forall path k o, pending s !! i = Some (RNFSExists path k) ->
                    remaining s = 3 /\ remaining (step s (ExistsSettled i o)) < 3) /\
  (forall path k o, pending s !! i = Some (RNFSMkdir path k) ->
                    remaining s = 2 /\ remaining (step s (MkdirSettled i o)) < 2) /\
  (forall cmd k, pending s !! i = Some (ExecuteAsync cmd k) ->
                 remaining s = 1 /\
                 (forall session, remaining (step s (ExecuteCompleted i session)) = 0) /\
                 (forall e, remaining (step s (ExecuteThrew i e)) = 0)).
Proof.
  intros s. pose proof (exec_Inv evs) as HI. fold s in HI.
  split; [|split; [|split; [|split; [|split]]]].
  - pose proof HI as [HF HM].
    destruct (List.filter isRun (pending s)) as [|t [|]] eqn:E; [| |contradiction].
    + unfold remaining. rewrite (stage_no_run _ E). lia.
    + assert (Hin : In t (pending s) /\ isRun t = true)
        by (apply List.filter_In; rewrite E; now left).
      destruct Hin as [Hin Ht]. apply list_elem_of_In, list_elem_of_lookup in Hin as [j Hj].
      rewrite (remaining_run s j t HI Hj Ht).
      destruct t; cbn; lia.
  - split.
    + intros H0. pose proof HI as [HF HM].
      destruct (List.filter isRun (pending s)) as [|t [|]] eqn:E; [exact HM | |contradiction].
      assert (Hin : In t (pending s) /\ isRun t = true)
        by (apply List.filter_In; rewrite E; now left).
      destruct Hin as [Hin Ht]. apply list_elem_of_In, list_elem_of_lookup in Hin as [j Hj].
      rewrite (remaining_run s j t HI Hj Ht) in H0.
      destruct HM as (p & _ & Hr). destruct Hr; discriminate.
    + intros Hb. apply stage_no_run. now apply (Inv_busy_iff _ HI).
  - intros p Hd. destruct (press_action _ _ HI Hd) as (Hb & _ & ->).
    unfold remaining. cbn [pending suspend with_busy].
    rewrite list_sum_stage_app, (stage_no_run (pending s)).
    + reflexivity.
    + now apply (Inv_busy_iff _ HI).
  - intros path k o Hi. split; [apply (remaining_run s i _ HI Hi eq_refl)|].
    destruct (settle_exists _ _ _ _ o HI Hi) as (p & input & _ & _ & _ & -> & HN).
    unfold remaining.
    destruct o as [[|]|e];
      rewrite ?run_afterExists_true, ?run_afterExists_false, ?run_afterExists_rejected;
      cbn [pending started suspend with_outputs with_pending failed with_alerts with_busy];
      rewrite ?list_sum_stage_app, (stage_no_run _ HN); cbn; lia.
  - intros path k o Hi. split; [apply (remaining_run s i _ HI Hi eq_refl)|].
    destruct (settle_mkdir _ _ _ _ o HI Hi) as (p & input & _ & _ & _ & -> & HN).
    unfold remaining.
    destruct o as [[]|e];
      rewrite ?run_afterMkdir_fulfilled, ?run_afterMkdir_rejected;
      cbn [pending started suspend with_outputs with_pending failed with_alerts with_busy];
      rewrite ?list_sum_stage_app, (stage_no_run _ HN); cbn; lia.
  - intros cmd k Hi. split; [apply (remaining_run s i _ HI Hi eq_refl)|].
    destruct (settle_ffmpeg _ _ _ _ HI Hi)
      as (p & input & iso & _ & _ & _ & _ & Hdone & Hthrew & HN).
    split; [intros session; rewrite Hdone | intros e; rewrite Hthrew];
      unfold remaining;
      cbn [pending finished failed with_alerts with_busy with_pending];
      now apply stage_no_run.
Qed.

(** *** Picking a video *)

(** X2: what a settlement of the picker does, in every reachable state and
    also while a run is in flight.  A picked video replaces the input
    reference and is announced; a cancelled pick shows nothing and changes
    nothing; any other failure shows its text and leaves the input
    reference as it was.  None of them touches busy, the outputs, the
    platform calls made or the adapter invocations in flight. *)
Theorem pick_outcomes (evs : list Event) (i : nat) k :
  let s := exec evs in
  pending s !! i = Some (PickSingle k) ->
  (forall uri,
     let s' := step s (PickSettled i (Fulfilled uri)) in
     inputUri s' = Some uri /\
     alerts s' = ("Video selected", uri) :: alerts s) /\
  (forall e, isCancel e = true ->
     let s' := step s (PickSettled i (Rejected e)) in
     inputUri s' = inputUri s /\ alerts s' = alerts s) /\
  (forall e, isCancel e = false ->
     let s' := step s (PickSettled i (Rejected e)) in
     inputUri s' = inputUri s /\
     alerts s' = ("Pick failed", errorText e) :: alerts s) /\
  (forall o,
     let s' := step s (PickSettled i o) in
     busy s' = busy s /\ outputs s' = outputs s /\ calls s' = calls s /\
     inFlight s' = inFlight s /\ pending s' = delete i (pending s)).
Proof.
  intros s Hi. pose proof (exec_Inv evs) as HI. fold s in HI.
  pose proof (settle_pick s i k) as Hstep.
  split; [|split; [|split]].
  - intros uri s'. subst s'. now rewrite (Hstep _ HI Hi).
  - intros e He s'. subst s'. rewrite (Hstep _ HI Hi). cbn zeta. now rewrite He.
  - intros e He s'. subst s'. rewrite (Hstep _ HI Hi). cbn zeta. now rewrite He.
  - intros o s'. subst s'. rewrite (Hstep _ HI Hi). cbn zeta.
    assert (Hfl : length (List.filter awaitsFFmpeg (delete i (pending s))) = inFlight s).
    { destruct (lookup_split _ _ _ Hi) as (l1 & l2 & Hl & ->).
      unfold inFlight. rewrite Hl, !List.filter_app. reflexivity. }
    destruct o as [uri|e]; [|destruct (isCancel e)]; repeat split; exact Hfl.
Qed.



(** *** A run from the touch to its end *)

(** X4: in every reachable state, when the adapter completes a run with
    success the controller leaves Running (busy becomes null), announces
    the preset as done, leaves the output list as it was, with the record of
    this run in it, makes no further platform call and no invocation is in
    flight; the action buttons can be touched again as long as a video is
    selected. *)
Theorem successful_run_is_announced (evs : list Event) (i : nat) (cmd : string) k
    (session : Session) :
  let s := exec evs in
  let s' := step s (ExecuteCompleted i session) in
  pending s !! i = Some (ExecuteAsync cmd k) -> isSuccess session = true ->
  exists p input iso,
    busy s = Some (label p) /\ busy s' = None /\
    alerts s' = (label p +:+ " done", "Check the output paths below.") :: alerts s /\
    outputs s' = outputs s /\
    cmd = buildCommand p (interpolate input) (outputPath p (stampOf iso)) /\
    In (outputRecord p (stampOf iso)) (outputs s') /\
    calls s' = calls s /\ inFlight s' = 0 /\
    forall q, disabled (ActionButton q) s' = negb (truthy (inputUri s)).
Proof.
  intros s s' Hi Hok. subst s'. pose proof (exec_Inv evs) as HI. fold s in HI.
  destruct (settle_ffmpeg _ _ _ _ HI Hi)
    as (p & input & iso & Hb & _ & Hcmd & Hrec & -> & _ & HN).
  exists p, input, iso. unfold finished. rewrite Hok.
  repeat split; try assumption.
  - unfold inFlight. cbn [pending with_alerts with_busy with_pending].
    pose proof (inFlight_le_runs (delete i (pending s))) as Hle.
    rewrite HN in Hle. cbn in Hle. lia.
  - intros q. cbn. apply orb_false_r.
Qed.

Lemma delete_app_l {A : Type} (l l' : list A) (i : nat) :
  i < length l -> delete i (l ++ l') = delete i l ++ l'.
Proof.
  revert i. induction l as [|x l IH]; intros [|i] H; cbn in *; try lia.
  - reflexivity.
  - f_equal. apply IH. lia.
Qed.

(** X5: a run keeps the input reference its handler closed over.  When an
    action button is touched while a pick is still open, and the pick then
    delivers another video before RNFS.exists answers, the selection shows
    the new video but the command handed to the adapter reads the video
    that was selected at the touch. *)
Theorem run_uses_input_of_the_touch (evs : list Event) (p : Preset) (j : nat) k
    (picked : string) :
  let s := exec evs in
  let s1 := step s (Press (ActionButton p)) in
  let s2 := step s1 (PickSettled j (Fulfilled picked)) in
  let s3 := step s2 (ExistsSettled (length (pending s) - 1) (Fulfilled true)) in
  disabled (ActionButton p) s = false ->
  pending s !! j = Some (PickSingle k) ->
  exists touched,
    inputUri s = Some touched /\ touched <> "" /\
    inputUri s3 = Some picked /\
    calls s3 =
      CallExecuteAsync (buildCommand p touched (outputPath p (stampOf (clock s))))
      :: CallExists outDir :: calls s.
Proof.
  intros s s1 s2 s3 Hd Hj. pose proof (exec_Inv evs) as HI. fold s in HI.
  destruct (press_action _ _ HI Hd) as (Hb & Hin & H1). fold s1 in H1.
  assert (HI1 : Inv s1) by now apply step_Inv.
  assert (Hlt : j < length (pending s)) by (apply lookup_lt_is_Some; eauto).
  assert (Hj1 : pending s1 !! j = Some (PickSingle k)).
  { rewrite H1. cbn [pending suspend]. now rewrite lookup_app_l. }
  assert (H2 : s2 = _) by (exact (settle_pick s1 j k (Fulfilled picked) HI1 Hj1)).
  cbn zeta in H2.
  assert (HI2 : Inv s2) by now apply step_Inv.
  assert (Hp2 : pending s2 = delete j (pending s) ++ [awaitingExists p (inputUri s)]).
  { rewrite H2, H1. cbn [pending with_alerts with_inputUri with_pending suspend with_busy].
    now apply delete_app_l. }
  assert (Hi2 : pending s2 !! (length (pending s) - 1) =
                Some (RNFSExists outDir (afterExists p (inputUri s)))).
  { rewrite Hp2, <- awaitingExists_node.
    replace (length (pending s) - 1) with (length (delete j (pending s)) + 0)
      by (rewrite length_delete by eauto; lia).
    now rewrite lookup_app_r, Nat.add_comm, Nat.add_sub by lia. }
  destruct (truthy_interpolate _ Hin) as [Hne Hsome].
  exists (interpolate (inputUri s)). split; [exact Hsome|]. split; [exact Hne|].
  subst s3. cbn [step]. rewrite Hi2. unfold resume. rewrite run_afterExists_true.
  unfold started.
  cbn [inputUri calls clock suspend with_outputs with_pending].
  rewrite H2.
  cbn [inputUri calls clock with_alerts with_inputUri with_pending].
  rewrite H1. split; reflexivity.
Qed.

(** What a run does once ensureOutDir has resolved, for every preset. *)
Lemma run_builds (evs : list Event) (i : nat) (ev : Event) (p : Preset) :
  let s := exec evs in
  busy s = Some (label p) ->
  (exists path k, pending s !! i = Some (RNFSExists path k) /\
                  ev = ExistsSettled i (Fulfilled true)) \/
  (exists path k, pending s !! i = Some (RNFSMkdir path k) /\
                  ev = MkdirSettled i (Fulfilled tt)) ->
  exists input,
    calls (step s ev) =
      CallExecuteAsync
        (buildCommand p (interpolate input) (outputPath p (stampOf (clock s))))
      :: calls s /\
    outputs (step s ev) = outputRecord p (stampOf (clock s)) :: outputs s.
Proof.
  intros s Hb H. pose proof (exec_Inv evs) as HI. fold s in HI.
  destruct H as [(path & k & Hi & ->) | (path & k & Hi & ->)].
  - destruct (settle_exists _ _ _ _ (Fulfilled true) HI Hi)
      as (q & input & Hq & _ & _ & -> & _).
    rewrite Hb in Hq. injection Hq as Hq. apply (label_inj p q) in Hq as <-.
    exists input. now rewrite run_afterExists_true.
  - destruct (settle_mkdir _ _ _ _ (Fulfilled tt) HI Hi)
      as (q & input & Hq & _ & _ & -> & _).
    rewrite Hb in Hq. injection Hq as Hq. apply (label_inj p q) in Hq as <-.
    exists input. now rewrite run_afterMkdir_fulfilled.
Qed.

(** X11: for Crop, Blur and Enhance the record put on the output list is
    the very file the command tells the adapter to write: the command ends
    with that record between double quotes, and the record is a file under
    the output directory whose name ends in .mp4. *)
Theorem record_is_the_file_written (evs : list Event) (i : nat) (ev : Event)
    (p : Preset) :
  let s := exec evs in
  p <> Split ->
  busy s = Some (label p) ->
  (exists path k, pending s !! i = Some (RNFSExists path k) /\
                  ev = ExistsSettled i (Fulfilled true)) \/
  (exists path k, pending s !! i = Some (RNFSMkdir path k) /\
                  ev = MkdirSettled i (Fulfilled tt)) ->
  exists record cmd,
    outputs (step s ev) = record :: outputs s /\
    calls (step s ev) = CallExecuteAsync cmd :: calls s /\
    endsWith cmd (dquote +:+ record +:+ dquote) = true /\
    startsWith record (outDir +:+ "/") = true /\
    endsWith record ".mp4" = true.
Proof.
  intros s Hp Hb H.
  destruct (run_builds evs i ev p Hb H) as (input & Hc & Ho).
  exists (outputRecord p (stampOf (clock s))),
    (buildCommand p (interpolate input) (outputPath p (stampOf (clock s)))).
  split; [exact Ho|]. split; [exact Hc|].
  destruct p; [contradiction | | |];
    cbv [outputRecord outputPath buildCommand buildCropSquareCommand
         buildBlurCommand buildEnhanceCommand];
    (split; [find_suffix | split; [|find_suffix]]);
    change ("/crop_" +:+ ?x) with ("/" +:+ "crop_" +:+ x);
    change ("/blur_" +:+ ?x) with ("/" +:+ "blur_" +:+ x);
    change ("/enhance_" +:+ ?x) with ("/" +:+ "enhance_" +:+ x);
    rewrite <- (append_assoc outDir); apply startsWith_append.
Qed.

(** *** An input reference that is the empty string *)

(** X13: an input reference that is the empty string counts as no video.
    withRun then only shows the alert asking to pick a video, whatever the
    label and the command closure, and the four action buttons are
    disabled; this is also the state right after the picker has delivered
    an empty reference, although it is announced as selected. *)
Theorem falsy_input_is_no_video (s : State) (l : string) (buildCmd : Async string) :
  truthy (inputUri s) = false ->
  run (withRun (inputUri s) l buildCmd) s =
    with_alerts (("No video", "Please pick a video first.") :: alerts s) s /\
  (forall p, disabled (ActionButton p) s = true) /\
  (forall p, step s (Press (ActionButton p)) = s).
Proof.
  intros H. split; [|split].
  - unfold withRun. rewrite H. reflexivity.
  - intros p. cbn [disabled]. now rewrite H.
  - intros p. cbn [step disabled]. now rewrite H.
Qed.

(** *** ensureOutDir on any file system *)

(** X14: on every file system, ensureOutDir either fulfils with outDir, and
    the directory then exists, or rejects with the error of RNFS.mkdir, and
    then the file system is as it was and the directory is still missing.
    It asks RNFS.exists first and calls RNFS.mkdir only when the answer was
    no; it never removes a directory and adds none but outDir. *)
Theorem ensureOutDir_outcomes (fs : FileSystem) :
  exists o fs' made,
    runOnFileSystem ensureOutDir fs = Some (o, fs', made) /\
    ((o = Fulfilled outDir /\ outDir ∈ directories fs') \/
     (o = Rejected couldNotCreate /\ fs' = fs /\
      (outDir ∉ directories fs) /\ (outDir ∈ refused fs))) /\
    ((made = [CallExists outDir] /\ (outDir ∈ directories fs)) \/
     (made = [CallExists outDir; CallMkdir outDir] /\ (outDir ∉ directories fs))) /\
    directories fs ⊆ directories fs' /\
    directories fs' ⊆ {[outDir]} ∪ directories fs /\
    refused fs' = refused fs.
Proof.
  rewrite run_ensureOutDir. unfold fsMkdir, fsExists.
  destruct (decide (outDir ∈ directories fs)) as [Hin|Hnin].
  - rewrite (bool_decide_eq_true_2 _ Hin).
    exists (Fulfilled outDir), fs, [CallExists outDir].
    split; [reflexivity|]. split; [now left|]. split; [now left|].
    split; [reflexivity|]. split; [|reflexivity].
    intros d Hd. apply elem_of_union. now right.
  - rewrite (bool_decide_eq_false_2 _ Hnin).
    destruct (decide (outDir ∈ refused fs)) as [Hr|Hr].
    + rewrite (bool_decide_eq_true_2 _ Hr).
      exists (Rejected couldNotCreate), fs, [CallExists outDir; CallMkdir outDir].
      split; [reflexivity|]. split; [right; auto|]. split; [now right|].
      split; [reflexivity|]. split; [|reflexivity].
      intros d Hd. apply elem_of_union. now right.
    + rewrite (bool_decide_eq_false_2 _ Hr).
      eexists (Fulfilled outDir), _, [CallExists outDir; CallMkdir outDir].
      split; [reflexivity|]. cbn [directories refused].
      split; [left; split; [reflexivity|]; apply elem_of_union; left;
              now apply elem_of_singleton|].
      split; [now right|].
      split; [intros d Hd; apply elem_of_union; now right|].
      split; reflexivity.
Qed.

End App.

(** ** Concrete runs

    The screen on a device whose documents directory is /data: a video is
    picked, then an action button is touched. *)

(** Witness of C1: with the Crop run suspended at the adapter, busy holds
    its label, one invocation is in flight, and a touch on any action button
    changes nothing. *)
Lemma one_run_at_a_time_witness :
  let evs := [Press PickButton; PickSettled 0 (Fulfilled "file:///a.mp4");
              Press (ActionButton CropSquare); ExistsSettled 0 (Fulfilled true)] in
  let s := exec "/data" evs in
  busy s = Some "Crop (Square)" /\ inFlight s = 1 /\
  forall p, step "/data" s (Press (ActionButton p)) = s.
Proof.
  intros evs s. split; [reflexivity | split; [reflexivity|]].
  intros p. apply (proj2 (proj2 (one_run_at_a_time "/data" evs))). discriminate.
Defined.

(** What keeps runs apart is the disabled prop of the buttons, not withRun:
    called directly while a run is in flight, the Blur handler overwrites
    busy and, once its ensureOutDir resolves, a second invocation is in
    flight. *)
Remark handler_does_not_check_busy :
  let evs := [Press PickButton; PickSettled 0 (Fulfilled "file:///a.mp4");
              Press (ActionButton CropSquare); ExistsSettled 0 (Fulfilled true)] in
  let s := exec "/data" evs in
  let s1 := run (onPress "/data" (ActionButton Blur) s) s in
  busy s1 = Some "Blur" /\
  inFlight (step "/data" s1 (ExistsSettled 1 (Fulfilled true))) = 2.
Proof. split; reflexivity. Qed.

(** Witness of C7: the initial state, where no video has been picked. *)
Lemma withRun_without_input_witness :
  inputUri initial = None /\
  run (withRun "/data" (inputUri initial) "Blur" (Ret "never built")) initial =
  with_alerts [("No video", "Please pick a video first.")] initial.
Proof.
  split; [reflexivity|].
  apply (proj1 (withRun_without_input "/data" initial "Blur" (Ret "never built") eq_refl)).
Defined.

(** Witness of C5: the adapter reports failure with a short log. *)
Lemma failing_run_leaves_running_witness :
  let evs := [Press PickButton; PickSettled 0 (Fulfilled "file:///a.mp4");
              Tick "2024-01-02T03:04:05.678Z";
              Press (ActionButton Blur); ExistsSettled 0 (Fulfilled true)] in
  let session := {| isSuccess := false; allLogsAsString := Some "Conversion failed!" |} in
  let s := exec "/data" evs in
  let s' := step "/data" s (ExecuteCompleted 0 session) in
  busy s' = None /\
  alerts s' = [("Blur failed", "Conversion failed!"); ("Video selected", "file:///a.mp4")] /\
  outputs s' = ["/data/outputs/blur_2024-01-02T03-04-05-678Z.mp4"] /\
  outputs s' = outputs s.
Proof.
  intros evs session s s'.
  assert (Hi : exists cmd k, pending s !! 0 = Some (ExecuteAsync cmd k))
    by (vm_compute; eauto).
  destruct Hi as (cmd & k & Hi).
  destruct (proj1 (failing_run_leaves_running "/data" evs 0) cmd k session Hi eq_refl)
    as (p & input & iso & _ & Hb & _ & _ & _ & Ho & _).
  split; [exact Hb|]. split; [reflexivity|]. split; [reflexivity | exact Ho].
Defined.

(** Counterexample to C6 as stated.  A run is requested with an input selected and
    RNFS.exists rejects: the run ends with the error alert and the output
    list is still empty, no record was appended.  And the record of a Split
    run is not the pattern handed to the builder. *)
Lemma no_record_when_ensureOutDir_throws :
  let e := {| isCancel := false; message := Some "EACCES"; asString := "Error: EACCES" |} in
  let s := exec "/data"
             [Press PickButton; PickSettled 0 (Fulfilled "file:///a.mp4");
              Press (ActionButton CropSquare); ExistsSettled 0 (Rejected e)] in
  let s2 := exec "/data"
              [Press PickButton; PickSettled 0 (Fulfilled "file:///a.mp4");
               Tick "2024-01-02T03:04:05.678Z";
               Press (ActionButton Split); ExistsSettled 0 (Fulfilled true)] in
  (inputUri s = Some "file:///a.mp4" /\ busy s = None /\ inFlight s = 0 /\
   alerts s = [("Crop (Square) error", "EACCES"); ("Video selected", "file:///a.mp4")] /\
   calls s = [CallExists "/data/outputs"; CallPickSingle] /\
   outputs s = []) /\
  (outputs s2 = ["/data/outputs/split_2024-01-02T03-04-05-678Z_001...mp4"] /\
   head (calls s2) =
     Some (CallExecuteAsync
             (buildSplitCommand "file:///a.mp4"
                "/data/outputs/split_2024-01-02T03-04-05-678Z_%03d.mp4"))).
Proof. repeat split. Qed.

(** Witness of C6 (amended): the record of a Crop run appears when
    RNFS.exists resolves, with the adapter invoked and not yet resolved. *)
Lemma record_appended_witness :
  let evs := [Press PickButton; PickSettled 0 (Fulfilled "file:///a.mp4");
              Tick "2024-01-02T03:04:05.678Z"; Press (ActionButton CropSquare)] in
  let s := exec "/data" evs in
  let s' := step "/data" s (ExistsSettled 0 (Fulfilled true)) in
  outputs s = [] /\
  outputs s' = ["/data/outputs/crop_2024-01-02T03-04-05-678Z.mp4"] /\
  inFlight s' = 1.
Proof.
  intros evs s s'.
  assert (Hi : exists path k, pending s !! 0 = Some (RNFSExists path k))
    by (vm_compute; eauto).
  destruct Hi as (path & k & Hi).
  destruct (proj1 (record_appended_when_command_is_built "/data" evs 0) path k Hi)
    as (p & input & _ & _ & _ & _ & Hone).
  split; [reflexivity|]. split; [reflexivity | exact Hone].
Defined.

(** Witness of C8: an empty file system. *)
Lemma ensureOutDir_twice_witness :
  let fs := {| directories := ∅; refused := ∅ |} in
  (outDir "/data" ∈ directories fs \/ outDir "/data" ∉ refused fs) /\
  exists fs1 calls1,
    runOnFileSystem (ensureOutDir "/data") fs =
      Some (Fulfilled (outDir "/data"), fs1, calls1) /\
    runOnFileSystem (ensureOutDir "/data") fs1 =
      Some (Fulfilled (outDir "/data"), fs1, [CallExists (outDir "/data")]).
Proof.
  intros fs.
  assert (H : outDir "/data" ∈ directories fs \/ outDir "/data" ∉ refused fs)
    by (right; apply not_elem_of_empty).
  split; [exact H|].
  destruct (ensureOutDir_twice "/data" fs H) as (fs1 & calls1 & H1 & H2 & _).
  exists fs1, calls1. split; assumption.
Defined.

(** Witness of C9 (amended): the scenario's input. *)
Lemma builders_encoding_options_witness :
  count_char " " "file:///a.mp4" = 0 /\
  forall p,
    preset_of (buildCommand p "file:///a.mp4" "/out/x.mp4") = Some "veryfast" /\
    quality_of (buildCommand p "file:///a.mp4" "/out/x.mp4") = Some (crf p).
Proof.
  split; [reflexivity|].
  apply (proj2 (builders_encoding_options "file:///a.mp4" "/out/x.mp4")). reflexivity.
Defined.

(** Witness of C4: a Split run. *)
Lemma split_segment_time_and_pattern_witness :
  let evs := [Press PickButton; PickSettled 0 (Fulfilled "file:///a.mp4");
              Tick "2024-01-02T03:04:05.678Z"; Press (ActionButton Split)] in
  let s := exec "/data" evs in
  busy s = Some (label Split) /\
  exists input,
    calls (step "/data" s (ExistsSettled 0 (Fulfilled true))) =
    CallExecuteAsync
      (buildSplitCommand (interpolate input)
         (splitPattern "/data" (stampOf (clock s)))) :: calls s.
Proof.
  intros evs s. split; [reflexivity|].
  assert (Hi : exists path k, pending s !! 0 = Some (RNFSExists path k))
    by (vm_compute; eauto).
  destruct Hi as (path & k & Hi).
  exact (proj2 (proj2 (split_segment_time_and_pattern "/data")) evs 0 path k eq_refl Hi).
Defined.

(** Witness of C10: a Split run that had to make the directory. *)
Lemma split_record_is_not_the_pattern_witness :
  let evs := [Press PickButton; PickSettled 0 (Fulfilled "file:///a.mp4");
              Tick "2024-01-02T03:04:05.678Z"; Press (ActionButton Split);
              ExistsSettled 0 (Fulfilled false)] in
  let s := exec "/data" evs in
  let s' := step "/data" s (MkdirSettled 0 (Fulfilled tt)) in
  outputs s' = ["/data/outputs/split_2024-01-02T03-04-05-678Z_001...mp4"] /\
  exists input,
    calls s' =
      CallExecuteAsync
        (buildSplitCommand (interpolate input)
           (splitPattern "/data" (stampOf (clock s)))) :: calls s /\
    replace "%03d" "001.." (splitPattern "/data" (stampOf (clock s))) <>
    splitPattern "/data" (stampOf (clock s)).
Proof.
  intros evs s s'. split; [reflexivity|].
  assert (Hi : exists path k, pending s !! 0 = Some (RNFSMkdir path k))
    by (vm_compute; eauto).
  destruct Hi as (path & k & Hi).
  destruct (proj1 (split_record_is_not_the_pattern "/data") evs 0
              (MkdirSettled 0 (Fulfilled tt)) eq_refl)
    as (input & Hc & _ & Hne).
  - right. exists path, k. split; [exact Hi | reflexivity].
  - exists input. split; [exact Hc | exact Hne].
Defined.

(** ** Concrete runs for the further properties *)

(** Witness of X2: the picker is open and delivers a video. *)
Lemma pick_outcomes_witness :
  let evs := [Press PickButton] in
  let s := exec "/data" evs in
  let s' := step "/data" s (PickSettled 0 (Fulfilled "file:///a.mp4")) in
  inputUri s' = Some "file:///a.mp4" /\
  alerts s' = [("Video selected", "file:///a.mp4")].
Proof.
  intros evs s s'.
  assert (Hi : exists k, pending s !! 0 = Some (PickSingle k)) by (vm_compute; eauto).
  destruct Hi as [k Hi].
  exact (proj1 (pick_outcomes "/data" evs 0 k Hi) "file:///a.mp4").
Defined.

(** Witness of X4: a Blur run that the adapter completes with success. *)
Lemma successful_run_is_announced_witness :
  let evs := [Press PickButton; PickSettled 0 (Fulfilled "file:///a.mp4");
              Tick "2024-01-02T03:04:05.678Z";
              Press (ActionButton Blur); ExistsSettled 0 (Fulfilled true)] in
  let session := {| isSuccess := true; allLogsAsString := None |} in
  let s := exec "/data" evs in
  let s' := step "/data" s (ExecuteCompleted 0 session) in
  alerts s' = [("Blur done", "Check the output paths below.");
               ("Video selected", "file:///a.mp4")] /\
  outputs s' = ["/data/outputs/blur_2024-01-02T03-04-05-678Z.mp4"] /\
  exists p, busy s = Some (label p) /\ busy s' = None.
Proof.
  intros evs session s s'.
  assert (Hi : exists cmd k, pending s !! 0 = Some (ExecuteAsync cmd k))
    by (vm_compute; eauto).
  destruct Hi as (cmd & k & Hi).
  destruct (successful_run_is_announced "/data" evs 0 cmd k session Hi eq_refl)
    as (p & input & iso & Hb & Hb' & _).
  split; [reflexivity|]. split; [reflexivity|]. now exists p.
Defined.

(** Witness of X5: Blur is touched on a.mp4 while a second pick is open,
    and that pick delivers b.mp4 before RNFS.exists answers. *)
Lemma run_uses_input_of_the_touch_witness :
  let evs := [Press PickButton; PickSettled 0 (Fulfilled "file:///a.mp4");
              Tick "2024-01-02T03:04:05.678Z"; Press PickButton] in
  let s := exec "/data" evs in
  let s1 := step "/data" s (Press (ActionButton Blur)) in
  let s2 := step "/data" s1 (PickSettled 0 (Fulfilled "file:///b.mp4")) in
  let s3 := step "/data" s2 (ExistsSettled 0 (Fulfilled true)) in
  inputUri s3 = Some "file:///b.mp4" /\
  head (calls s3) =
    Some (CallExecuteAsync
            (buildBlurCommand "file:///a.mp4"
               "/data/outputs/blur_2024-01-02T03-04-05-678Z.mp4")) /\
  exists touched, inputUri s = Some touched /\ touched <> "".
Proof.
  intros evs s s1 s2 s3.
  assert (Hj : exists k, pending s !! 0 = Some (PickSingle k)) by (vm_compute; eauto).
  destruct Hj as [k Hj].
  destruct (run_uses_input_of_the_touch "/data" evs Blur 0 k "file:///b.mp4" eq_refl Hj)
    as (touched & Hsel & Hne & _).
  split; [reflexivity|]. split; [reflexivity|]. now exists touched.
Defined.

(** Witness of X9: a path collides with itself. *)
Lemma output_paths_collide_only_on_same_stamp_witness :
  outputPath "/data" Blur "T" = outputPath "/data" Blur "T" /\
  Blur = Blur /\ "T" = "T".
Proof.
  split; [reflexivity|].
  exact (output_paths_collide_only_on_same_stamp "/data" Blur Blur "T" "T" eq_refl).
Defined.

(** Witness of X11: a Crop run whose directory exists. *)
Lemma record_is_the_file_written_witness :
  let evs := [Press PickButton; PickSettled 0 (Fulfilled "file:///a.mp4");
              Tick "2024-01-02T03:04:05.678Z"; Press (ActionButton CropSquare)] in
  let s := exec "/data" evs in
  let s' := step "/data" s (ExistsSettled 0 (Fulfilled true)) in
  outputs s' = ["/data/outputs/crop_2024-01-02T03-04-05-678Z.mp4"] /\
  exists record cmd,
    outputs s' = record :: outputs s /\
    calls s' = CallExecuteAsync cmd :: calls s /\
    endsWith cmd (dquote +:+ record +:+ dquote) = true.
Proof.
  intros evs s s'. split; [reflexivity|].
  assert (Hi : exists path k, pending s !! 0 = Some (RNFSExists path k))
    by (vm_compute; eauto).
  destruct Hi as (path & k & Hi).
  assert (Hp : CropSquare <> Split) by discriminate.
  destruct (record_is_the_file_written "/data" evs 0
              (ExistsSettled 0 (Fulfilled true)) CropSquare Hp eq_refl)
    as (record & cmd & Ho & Hc & He & _).
  - left. exists path, k. split; [exact Hi | reflexivity].
  - exists record, cmd. split; [exact Ho|]. split; [exact Hc | exact He].
Defined.

(** Witness of X13: the picker has delivered an empty reference. *)
Lemma falsy_input_is_no_video_witness :
  let s := exec "/data" [Press PickButton; PickSettled 0 (Fulfilled "")] in
  inputUri s = Some "" /\
  alerts s = [("Video selected", "")] /\
  truthy (inputUri s) = false /\
  forall p, disabled (ActionButton p) s = true.
Proof.
  intros s. split; [reflexivity|]. split; [reflexivity|]. split; [reflexivity|].
  exact (proj1 (proj2 (falsy_input_is_no_video "/data" s "Blur" (Ret "never built") eq_refl))).
Defined.
